(** * Monzo OAuth authentication server ([monzo-auth-server/server.py])

    A shallow embedding of the Flask application and the properties of its
    OAuth handshake: authorization-URL construction, callback validation,
    the code-for-token exchange and the use of the session.

    Python strings are [string]s (byte strings, UTF-8), the Flask session,
    a dict, is a [gmap string string], [request.form] and [request.args],
    MultiDicts, are association lists read by first match, and the
    handlers are programs of a small effect monad whose events are the
    session reads and writes and the outbound [requests.post]. *)

From Stdlib Require Import String Ascii ZArith List Bool Lia.
From stdpp Require Import gmap strings pretty.

Set Warnings "-register-all".


Local Open Scope Z_scope.

(** ** Python values *)

Module Py.

(** The double-quote character, which the page templates contain. *)
Definition dq : string := String (ascii_of_nat 34) EmptyString.

(** Truth value of [x] for [x : Optional[str]]: [None] and [''] are
    falsy. *)
Definition truthy (x : option string) : bool :=
  match x with
  | None => false
  | Some EmptyString => false
  | Some (String _ _) => true
  end.

(** [needle in hay] *)
Definition contains (needle hay : string) : Prop :=
  exists pre post, hay = pre +:+ needle +:+ post.


(** What [json.loads] builds. An object is a dict, given by its items
    (keys are distinct); a float is kept as its lexeme. *)
Inductive json : Type :=
| JNull
| JBool (b : bool)
| JInt (n : Z)
| JFloat (lexeme : string)
| JString (s : string)
| JArray (items : list json)
| JObject (items : list (string * json)).

(** Exceptions a handler can meet. [RequestException] stands for the
    class and its subclasses; the argument is [str(e)]. *)
Inductive exn : Type :=
| RequestException (description : string)
| AttributeError (description : string)
| OtherException (description : string).

(** [d.get(key)] on the items of a dict. *)
Fixpoint items_get {V : Type} (key : string) (items : list (string * V)) : option V :=
  match items with
  | [] => None
  | (k, v) :: rest => if String.eqb k key then Some v else items_get key rest
  end.

End Py.
Export Py.

(** ** Flask requests and responses *)

Module Flask.

(** [werkzeug.datastructures.MultiDict]: [get] returns the first value
    stored for the key. *)
Definition MultiDict : Type := list (string * string).

Definition get (key : string) (d : MultiDict) : option string :=
  items_get key d.

(** A response body: markup returned by a view, or [jsonify(dict)]. *)
Inductive Body : Type :=
| Html (markup : string)
| Json (fields : list (string * string)).

Record Response : Type := mkResponse { body : Body; status : Z }.

Definition body_text (b : Body) : string :=
  match b with
  | Html s => s
  | Json _ => ""
  end.

End Flask.
Export Flask.

(** ** The outbound HTTP client *)

Module Requests.

(** [requests.Response]: [json_] is what [.json()] does, return the
    decoded body or raise. *)
Record HttpResponse : Type := mkHttpResponse {
  status_code : Z;
  text : string;
  json_ : exn + json
}.

(** One call [requests.post(url, data=data)]. *)
Record PostCall : Type := mkPostCall {
  post_url : string;
  post_data : list (string * string)
}.

End Requests.
Export Requests.

(** ** Handler programs *)

Module Eff.

Inductive Prog (A : Type) : Type :=
| Ret (a : A)
| Raise (e : exn)
| SessionGet (key : string) (k : option string -> Prog A)
| SessionSet (key val : string) (k : Prog A)
| Post (call : PostCall) (k : exn + HttpResponse -> Prog A).

Arguments Ret {A} a.
Arguments Raise {A} e.
Arguments SessionGet {A} key k.
Arguments SessionSet {A} key val k.
Arguments Post {A} call k.

Fixpoint bind {A B : Type} (p : Prog A) (f : A -> Prog B) : Prog B :=
  match p with
  | Ret a => f a
  | Raise e => Raise e
  | SessionGet key k => SessionGet key (fun v => bind (k v) f)
  | SessionSet key val k => SessionSet key val (bind k f)
  | Post call k => Post call (fun r => bind (k r) f)
  end.

(** [try: p  except ...: handler], where [handler e = None] when no
    clause matches [e]. *)
Fixpoint try_except {A : Type} (p : Prog A) (handler : exn -> option (Prog A)) : Prog A :=
  match p with
  | Ret a => Ret a
  | Raise e => match handler e with Some h => h | None => Raise e end
  | SessionGet key k => SessionGet key (fun v => try_except (k v) handler)
  | SessionSet key val k => SessionSet key val (try_except k handler)
  | Post call k => Post call (fun r => try_except (k r) handler)
  end.

(** [session.get(key)] *)
Definition session_get (key : string) : Prog (option string) :=
  SessionGet key Ret.

(** [session[key] = val] *)
Definition session_set (key val : string) : Prog unit :=
  SessionSet key val (Ret tt).

(** [requests.post(url, data=data)]: the response, or the exception the
    library raised. *)
Definition requests_post (url : string) (data : list (string * string)) : Prog HttpResponse :=
  Post (mkPostCall url data)
       (fun r => match r with inl e => Raise e | inr resp => Ret resp end).

(** [response.json()] *)
Definition response_json (r : HttpResponse) : Prog json :=
  match json_ r with
  | inl e => Raise e
  | inr v => Ret v
  end.

(** [v.get(key, default)]: only a dict has [get]. *)
Definition dict_get (v : json) (key : string) (default : json) : Prog json :=
  match v with
  | JObject items => Ret (from_option id default (items_get key items))
  | _ => Raise (AttributeError "object has no attribute 'get'")
  end.

(** The world a handler runs in: the session of the request and the log
    of the calls made to the provider so far. *)
Record World : Type := mkWorld {
  session : gmap string string;
  posts : list PostCall
}.

(** The provider answers a call knowing the calls made before it. *)
Definition Provider : Type := list PostCall -> PostCall -> exn + HttpResponse.

Fixpoint run {A : Type} (provider : Provider) (p : Prog A) (w : World) : (exn + A) * World :=
  match p with
  | Ret a => (inr a, w)
  | Raise e => (inl e, w)
  | SessionGet key k => run provider (k (session w !! key)) w
  | SessionSet key val k =>
      run provider k (mkWorld (<[key := val]> (session w)) (posts w))
  | Post call k =>
      run provider (k (provider (posts w) call))
          (mkWorld (session w) (posts w ++ [call]))
  end.

End Eff.
Export Eff.

Notation "x <- c1 ;; c2" := (Eff.bind c1 (fun x => c2))
  (at level 100, c1 at next level, right associativity).
Notation "c1 ;;; c2" := (Eff.bind c1 (fun _ => c2))
  (at level 100, right associativity).

(** ** The application *)

Module Server.

(** [REDIRECT_URI] *)
Definition REDIRECT_URI : string := "http://localhost:8080/callback".

(** [HTTP 200], the status of a view that returns markup alone. *)
Definition OK : Z := 200.

Section Process.

(** [STATE_TOKEN = secrets.token_urlsafe(32)], drawn once when the module
    is loaded: a constant of the process. *)
Variable STATE_TOKEN : string.

(** [repr] of the values an f-string does not print by themselves
    (floats, lists, dicts); the interpreter's business. *)
Variable py_repr : json -> string.

(** [f"{v}"] *)
Definition py_format (v : json) : string :=
  match v with
  | JString s => s
  | JNull => "None"
  | JBool true => "True"
  | JBool false => "False"
  | JInt n => pretty n
  | _ => py_repr v
  end.

(** [generate_auth_url(client_id)] *)
Definition generate_auth_url (client_id : string) : string :=
  "https://auth.monzo.com/?" +:+
  "client_id=" +:+ client_id +:+ "&" +:+
  "redirect_uri=" +:+ REDIRECT_URI +:+ "&" +:+
  "response_type=code&" +:+
  "state=" +:+ STATE_TOKEN.

(** The page of [home()]. *)
Definition home_page : string :=
  "
    <h1>Monzo OAuth Authentication Server</h1>
    
    <h2>Instructions:</h2>
    
    <ol>
        <li>Go to <a href=" +:+
  dq +:+
  "https://developers.monzo.com/apps" +:+
  dq +:+
  " target=" +:+
  dq +:+
  "_blank" +:+
  dq +:+
  ">https://developers.monzo.com/apps</a>. You might need to create your developer account and/or approve this action from the Monzo mobile app.</li>
        <li>Press " +:+
  dq +:+
  "New OAuth Client" +:+
  dq +:+
  ".</li>
        <li>Enter the following values:
            <ul>
                <li><strong>Name:</strong> Apps Script Expense Tracker</li>
                <li><strong>Logo URL:</strong> (leave empty)</li>
                <li><strong>Redirect Urls:</strong> http://localhost:8080/callback</li>
                <li><strong>Description:</strong> Expense tracking spreadsheet on Google Sheets</li>
                <li><strong>Confidentiality:</strong> Confidential</li>
            </ul>
        </li>
        <li>Press " +:+
  dq +:+
  "Submit" +:+
  dq +:+
  "</li>
        <li>Copy the Client Id and Client Secret and paste them here:</li>
    </ol>
    
    <form method=" +:+
  dq +:+
  "POST" +:+
  dq +:+
  " action=" +:+
  dq +:+
  "/authorize" +:+
  dq +:+
  ">
        <div style=" +:+
  dq +:+
  "margin-bottom: 15px;" +:+
  dq +:+
  ">
            <label for=" +:+
  dq +:+
  "client_id" +:+
  dq +:+
  "><strong>Client ID:</strong></label><br>
            <input type=" +:+
  dq +:+
  "text" +:+
  dq +:+
  " id=" +:+
  dq +:+
  "client_id" +:+
  dq +:+
  " name=" +:+
  dq +:+
  "client_id" +:+
  dq +:+
  " required 
                   style=" +:+
  dq +:+
  "width: 400px; padding: 8px; margin-top: 5px;" +:+
  dq +:+
  " 
                   placeholder=" +:+
  dq +:+
  "Enter your Monzo Client ID" +:+
  dq +:+
  ">
        </div>
        
        <div style=" +:+
  dq +:+
  "margin-bottom: 15px;" +:+
  dq +:+
  ">
            <label for=" +:+
  dq +:+
  "client_secret" +:+
  dq +:+
  "><strong>Client Secret:</strong></label><br>
            <input type=" +:+
  dq +:+
  "password" +:+
  dq +:+
  " id=" +:+
  dq +:+
  "client_secret" +:+
  dq +:+
  " name=" +:+
  dq +:+
  "client_secret" +:+
  dq +:+
  " required 
                   style=" +:+
  dq +:+
  "width: 400px; padding: 8px; margin-top: 5px;" +:+
  dq +:+
  " 
                   placeholder=" +:+
  dq +:+
  "Enter your Monzo Client Secret" +:+
  dq +:+
  ">
        </div>

        <p style=" +:+
  dq +:+
  "margin-top: 20px;" +:+
  dq +:+
  "><strong>6.</strong> Then click the following button to approve this app on Monzo:</p>
        
        <button type=" +:+
  dq +:+
  "submit" +:+
  dq +:+
  " style=" +:+
  dq +:+
  "padding: 10px 20px; background: #007bff; color: white; border: none; border-radius: 4px; cursor: pointer;" +:+
  dq +:+
  ">
            Authorize with Monzo
        </button>
    </form>    
    ".

(** The page [authorize()] answers with: a script that sends the browser to
    [auth_url], and a link to it. *)
Definition redirect_page (auth_url : string) : string :=
  "
    <script>
        window.location.href = " +:+
  dq +:+
  auth_url +:+
  dq +:+
  ";
    </script>
    <h1>Redirecting to Monzo...</h1>
    <p>If you are not redirected automatically, <a href=" +:+
  dq +:+
  auth_url +:+
  dq +:+
  ">click here</a>.</p>
    ".

(** The page [callback()] renders after a successful exchange; the
    arguments are the interpolated values: the table cells, then the
    literals of the script. *)
Definition tokens_page (access_token refresh_token client_id client_secret access_token_js refresh_token_js : string) : string :=
  "
            <h1>🎉 A couple more things</h1>

            <ol>
              <li>Go to your Monzo mobile app and press Approve</li>
              <li>In your spreadsheet, go to Extensions → Apps Script → Project Settings → Script Properties and add the following:</li>
            </ol>

            <div style=" +:+
  dq +:+
  "background: #f8f9fa; border: 1px solid #dee2e6; border-radius: 5px; padding: 20px; margin: 20px 0;" +:+
  dq +:+
  ">
                <h3>🔑 Script Properties:</h3>
                <table style=" +:+
  dq +:+
  "width: 100%; border-collapse: collapse;" +:+
  dq +:+
  ">
                    <tr style=" +:+
  dq +:+
  "border-bottom: 1px solid #dee2e6;" +:+
  dq +:+
  ">
                        <td style=" +:+
  dq +:+
  "padding: 10px; font-weight: bold; width: 200px;" +:+
  dq +:+
  ">MONZO_ACCESS_TOKEN</td>
                        <td style=" +:+
  dq +:+
  "padding: 10px; font-family: monospace; word-break: break-all;" +:+
  dq +:+
  ">" +:+
  access_token +:+
  "</td>
                        <td style=" +:+
  dq +:+
  "padding: 10px;" +:+
  dq +:+
  ">
                            <button onclick=" +:+
  dq +:+
  "copyToClipboard('access_token')" +:+
  dq +:+
  " style=" +:+
  dq +:+
  "padding: 5px 10px; background: #28a745; color: white; border: none; border-radius: 3px; cursor: pointer;" +:+
  dq +:+
  ">Copy</button>
                        </td>
                    </tr>
                    <tr style=" +:+
  dq +:+
  "border-bottom: 1px solid #dee2e6;" +:+
  dq +:+
  ">
                        <td style=" +:+
  dq +:+
  "padding: 10px; font-weight: bold;" +:+
  dq +:+
  ">MONZO_REFRESH_TOKEN</td>
                        <td style=" +:+
  dq +:+
  "padding: 10px; font-family: monospace; word-break: break-all;" +:+
  dq +:+
  ">" +:+
  refresh_token +:+
  "</td>
                        <td style=" +:+
  dq +:+
  "padding: 10px;" +:+
  dq +:+
  ">
                            <button onclick=" +:+
  dq +:+
  "copyToClipboard('refresh_token')" +:+
  dq +:+
  " style=" +:+
  dq +:+
  "padding: 5px 10px; background: #28a745; color: white; border: none; border-radius: 3px; cursor: pointer;" +:+
  dq +:+
  ">Copy</button>
                        </td>
                    </tr>
                    <tr style=" +:+
  dq +:+
  "border-bottom: 1px solid #dee2e6;" +:+
  dq +:+
  ">
                        <td style=" +:+
  dq +:+
  "padding: 10px; font-weight: bold;" +:+
  dq +:+
  ">MONZO_CLIENT_ID</td>
                        <td style=" +:+
  dq +:+
  "padding: 10px; font-family: monospace;" +:+
  dq +:+
  ">" +:+
  client_id +:+
  "</td>
                        <td style=" +:+
  dq +:+
  "padding: 10px;" +:+
  dq +:+
  ">
                            <button onclick=" +:+
  dq +:+
  "copyToClipboard('client_id')" +:+
  dq +:+
  " style=" +:+
  dq +:+
  "padding: 5px 10px; background: #28a745; color: white; border: none; border-radius: 3px; cursor: pointer;" +:+
  dq +:+
  ">Copy</button>
                        </td>
                    </tr>
                    <tr>
                        <td style=" +:+
  dq +:+
  "padding: 10px; font-weight: bold;" +:+
  dq +:+
  ">MONZO_CLIENT_SECRET</td>
                        <td style=" +:+
  dq +:+
  "padding: 10px; font-family: monospace;" +:+
  dq +:+
  ">" +:+
  client_secret +:+
  "</td>
                        <td style=" +:+
  dq +:+
  "padding: 10px;" +:+
  dq +:+
  ">
                            <button onclick=" +:+
  dq +:+
  "copyToClipboard('client_secret')" +:+
  dq +:+
  " style=" +:+
  dq +:+
  "padding: 5px 10px; background: #28a745; color: white; border: none; border-radius: 3px; cursor: pointer;" +:+
  dq +:+
  ">Copy</button>
                        </td>
                    </tr>
                </table>
            </div>
            
            <script>
                function copyToClipboard(type) {
                    let text = '';
                    switch(type) {
                        case 'access_token':
                            text = '" +:+
  access_token_js +:+
  "';
                            break;
                        case 'refresh_token':
                            text = '" +:+
  refresh_token_js +:+
  "';
                            break;
                        case 'client_id':
                            text = '" +:+
  client_id +:+
  "';
                            break;
                        case 'client_secret':
                            text = '" +:+
  client_secret +:+
  "';
                            break;
                    }
                    
                    navigator.clipboard.writeText(text).then(function() {
                        // Show feedback
                        const button = event.target;
                        const originalText = button.textContent;
                        button.textContent = 'Copied!';
                        button.style.background = '#6c757d';
                        setTimeout(function() {
                            button.textContent = originalText;
                            button.style.background = '#28a745';
                        }, 2000);
                    }).catch(function(err) {
                        console.error('Could not copy text: ', err);
                        alert('Failed to copy to clipboard');
                    });
                }
            </script>
            
            <div style=" +:+
  dq +:+
  "text-align: center; margin: 30px 0;" +:+
  dq +:+
  ">
                <a href=" +:+
  dq +:+
  "/" +:+
  dq +:+
  " style=" +:+
  dq +:+
  "display: inline-block; padding: 10px 20px; background: #007bff; color: white; text-decoration: none; border-radius: 4px;" +:+
  dq +:+
  ">
                    Start Over
                </a>
            </div>
            ".

(** An [Optional[str]] used as a [str]: the string itself, and what
    Python prints for [None]. *)
Definition text_of (x : option string) : string :=
  match x with
  | Some s => s
  | None => "None"
  end.

(** [home()] *)
Definition home : Prog Response :=
  Ret (mkResponse (Html home_page) OK).

(** [authorize()] *)
Definition authorize (form : MultiDict) : Prog Response :=
  let client_id := get "client_id" form in
  let client_secret := get "client_secret" form in
  if negb (truthy client_id) || negb (truthy client_secret) then
    Ret (mkResponse
           (Html "<h1>Error</h1><p>Both Client ID and Client Secret are required</p>")
           400)
  else
    session_set "client_id" (text_of client_id) ;;;
    session_set "client_secret" (text_of client_secret) ;;;
    let auth_url := generate_auth_url (text_of client_id) in
    Ret (mkResponse (Html (redirect_page auth_url)) OK).

(** The [except requests.RequestException as e] clause of [callback()]. *)
Definition on_request_exception (e : exn) : option (Prog Response) :=
  match e with
  | RequestException description =>
      Some (Ret (mkResponse
                   (Html ("<h1>Request Error</h1><p>Error: " +:+ description +:+ "</p>"))
                   500))
  | _ => None
  end.

(** The [try] statement of [callback()]: the exchange of the
    authorization code for the tokens. *)
Definition exchange (client_id client_secret code : string) : Prog Response :=
  try_except
    (token_response <-
       requests_post "https://api.monzo.com/oauth2/token"
                     [ ("grant_type", "authorization_code");
                       ("client_id", client_id);
                       ("client_secret", client_secret);
                       ("redirect_uri", REDIRECT_URI);
                       ("code", code) ] ;;
     if status_code token_response =? 200 then
       token_data <- response_json token_response ;;
       access_token <- dict_get token_data "access_token" JNull ;;
       refresh_token <-
         dict_get token_data "refresh_token"
                  (JString "No refresh token (non-confidential client)") ;;
       access_token_js <- dict_get token_data "access_token" JNull ;;
       refresh_token_js <- dict_get token_data "refresh_token" (JString "") ;;
       Ret (mkResponse
              (Html (tokens_page (py_format access_token) (py_format refresh_token)
                                 client_id client_secret
                                 (py_format access_token_js)
                                 (py_format refresh_token_js)))
              OK)
     else
       let error_detail := text token_response in
       Ret (mkResponse
              (Html ("<h1>Token Exchange Failed</h1><p>Status: " +:+
                     pretty (status_code token_response) +:+
                     "</p><p>Error: " +:+ error_detail +:+ "</p>"))
              400))
    on_request_exception.

(** [callback()] *)
Definition callback (args : MultiDict) : Prog Response :=
  client_id <- session_get "client_id" ;;
  client_secret <- session_get "client_secret" ;;
  if negb (truthy client_id) || negb (truthy client_secret) then
    Ret (mkResponse
           (Html "<h1>Error</h1><p>Session expired. Please start over from the home page.</p>")
           400)
  else
    let code := get "code" args in
    let state := get "state" args in
    let error := get "error" args in
    if truthy error then
      Ret (mkResponse
             (Html ("<h1>Authorization Error</h1><p>Error: " +:+ text_of error +:+ "</p>"))
             400)
    else if negb (bool_decide (state = Some STATE_TOKEN)) then
      Ret (mkResponse (Html "<h1>Security Error</h1><p>Invalid state token</p>") 400)
    else if negb (truthy code) then
      Ret (mkResponse (Html "<h1>Error</h1><p>No authorization code received</p>") 400)
    else
      exchange (text_of client_id) (text_of client_secret) (text_of code).

(** [api_token()] *)
Definition api_token : Prog Response :=
  client_id <- session_get "client_id" ;;
  if negb (truthy client_id) then
    Ret (mkResponse (Json [("error", "No client credentials in session")]) 400)
  else
    Ret (mkResponse
           (Json [ ("auth_url", generate_auth_url (text_of client_id));
                   ("redirect_uri", REDIRECT_URI);
                   ("state_token", STATE_TOKEN) ])
           OK).

(** The routes of the application. *)
Inductive Request : Type :=
| GET_home
| POST_authorize (form : MultiDict)
| GET_callback (args : MultiDict)
| GET_api_token.

Definition handle (r : Request) : Prog Response :=
  match r with
  | GET_home => home
  | POST_authorize form => authorize form
  | GET_callback args => callback args
  | GET_api_token => api_token
  end.

(** The worlds a browser session goes through: it starts with an empty
    session, and only the handlers change it. *)
Inductive reachable : World -> Prop :=
| reachable_start : reachable (mkWorld ∅ [])
| reachable_request (provider : Provider) (r : Request) (w : World) :
    reachable w -> reachable (snd (run provider (handle r) w)).

End Process.

End Server.
Export Server.

(** ** The reference behaviour

    The definitions of this module follow the words of the specification,
    not the code: the credential store's [Load], the callback parameters
    and the state machine of the Callback Validator. The theorems below
    compare the handlers with them. *)

Module Reference.

(** SessionCredentials: both fields non-empty. *)
Record SessionCredentials : Type := mkCredentials {
  cred_client_id : string;
  cred_client_secret : string
}.

(** A value that is present and non-empty. *)
Definition nonempty (x : option string) : option string :=
  match x with
  | Some (String a s) => Some (String a s)
  | _ => None
  end.

(** [Load]: the credentials of the session, absent when the session does
    not hold the two of them. *)
Definition Load (s : gmap string string) : option SessionCredentials :=
  match nonempty (s !! "client_id"), nonempty (s !! "client_secret") with
  | Some i, Some k => Some (mkCredentials i k)
  | _, _ => None
  end.

(** The invariant of the store: a session holds the two credentials or
    none of them. *)
Definition paired (s : gmap string string) : Prop :=
  truthy (s !! "client_id") = truthy (s !! "client_secret").

(** CallbackParams: [{code, state, error}], each optional. *)
Record CallbackParams : Type := mkParams {
  cb_code : option string;
  cb_state : option string;
  cb_error : option string
}.

Definition params_of (args : MultiDict) : CallbackParams :=
  mkParams (get "code" args) (get "state" args) (get "error" args).

(** The terminal outcomes of one callback request. *)
Inductive Outcome : Type :=
| SessionExpired
| AuthorizationDenied (error : string)
| StateMismatch
| MissingCode
| Valid (code : string).

(** The state machine: the session first, then [error], then [state],
    then [code]. *)
Definition validate (token : string) (creds : option SessionCredentials)
    (p : CallbackParams) : Outcome :=
  match creds with
  | None => SessionExpired
  | Some _ =>
      match nonempty (cb_error p) with
      | Some e => AuthorizationDenied e
      | None =>
          if decide (cb_state p = Some token) then
            match nonempty (cb_code p) with
            | Some c => Valid c
            | None => MissingCode
            end
          else StateMismatch
      end
  end.

Definition is_valid (o : Outcome) : bool :=
  match o with
  | Valid _ => true
  | _ => false
  end.

(** The call of the Token Exchanger: one form-encoded POST to the
    provider's token endpoint with [grant_type=authorization_code],
    [client_id], [client_secret], [redirect_uri] and [code]. *)
Definition token_request (client_id client_secret code : string) : PostCall :=
  mkPostCall "https://api.monzo.com/oauth2/token"
    [ ("grant_type", "authorization_code");
      ("client_id", client_id);
      ("client_secret", client_secret);
      ("redirect_uri", REDIRECT_URI);
      ("code", code) ].



End Reference.
Export Reference.

(** ** Reading a URL's query string

    How the receiver of a URL recovers the parameters of its query
    (the [application/x-www-form-urlencoded] parser of the URL standard,
    which [urllib.parse.parse_qsl] with [keep_blank_values] and the
    browsers' [URLSearchParams] implement): the query runs from the first
    [?] to the first [#]; it is cut at every [&]; each piece is cut at its
    first [=]; in names and values [+] is a space and [%XY] the byte with
    hexadecimal digits [XY]. *)

Module UrlQuery.

(** Does [c] occur in [s]? *)
Fixpoint occurs (c : ascii) (s : string) : bool :=
  match s with
  | EmptyString => false
  | String a r => Ascii.eqb a c || occurs c r
  end.

(** The part of [s] before the first [c]. *)
Fixpoint before (c : ascii) (s : string) : string :=
  match s with
  | EmptyString => EmptyString
  | String a r => if Ascii.eqb a c then EmptyString else String a (before c r)
  end.

(** The part of [s] after the first [c], if [c] occurs. *)
Fixpoint after (c : ascii) (s : string) : option string :=
  match s with
  | EmptyString => None
  | String a r => if Ascii.eqb a c then Some r else after c r
  end.

(** [s.split(c)] *)
Fixpoint split_on (c : ascii) (s : string) : list string :=
  match s with
  | EmptyString => [EmptyString]
  | String a r =>
      if Ascii.eqb a c then EmptyString :: split_on c r
      else match split_on c r with
           | h :: t => String a h :: t
           | [] => [String a EmptyString]
           end
  end.

Definition hex_digit (a : ascii) : option N :=
  let n := N_of_ascii a in
  if ((48 <=? n) && (n <=? 57))%N then Some (n - 48)%N
  else if ((65 <=? n) && (n <=? 70))%N then Some (n - 55)%N
  else if ((97 <=? n) && (n <=? 102))%N then Some (n - 87)%N
  else None.

(** Percent-decoding, with [+] read as a space. *)
Fixpoint decode (s : string) : string :=
  match s with
  | EmptyString => EmptyString
  | String a r =>
      if Ascii.eqb a "+" then String " " (decode r)
      else if Ascii.eqb a "%" then
        match r with
        | String h (String l r') =>
            match hex_digit h, hex_digit l with
            | Some x, Some y => String (ascii_of_N (16 * x + y)) (decode r')
            | _, _ => String a (decode r)
            end
        | _ => String a (decode r)
        end
      else String a (decode r)
  end.

Definition is_empty (s : string) : bool :=
  match s with
  | EmptyString => true
  | _ => false
  end.

Definition parse_pair (piece : string) : string * string :=
  (decode (before "=" piece), decode (default EmptyString (after "=" piece))).

Definition parse_query (q : string) : list (string * string) :=
  map parse_pair (List.filter (fun piece => negb (is_empty piece)) (split_on "&" q)).

Definition query_of (url : string) : string :=
  default EmptyString (after "?" (before "#" url)).

(** The parameters of the URL's query, in order. *)
Definition params (url : string) : list (string * string) :=
  parse_query (query_of url).

(** The value of the parameter [name]: the first one, if it is repeated. *)
Definition param (name url : string) : option string :=
  items_get name (params url).

(** A value that a query carries unchanged: none of [&], [#], [%] and
    [+] occurs in it. *)
Definition plain (s : string) : bool :=
  negb (occurs "&" s) && negb (occurs "#" s) &&
  negb (occurs "%" s) && negb (occurs "+" s).

End UrlQuery.

(** ** Scenarios

    The inputs of the end-to-end scenarios: a process token, the submitted
    credentials, a callback and the provider's answers. *)

Module Scenario.

Definition token : string := "tok".

Definition repr (v : json) : string := "".

Definition form : MultiDict := [("client_id", "abc"); ("client_secret", "xyz")].

(** The world after the form was submitted to an empty session. *)
Definition authorized : World :=
  mkWorld (<["client_secret" := "xyz"]> (<["client_id" := "abc"]> ∅)) [].

Definition good_callback : MultiDict := [("code", "good123"); ("state", "tok")].

Definition wrong_state_callback : MultiDict := [("code", "good123"); ("state", "wrong")].

(** The provider answers [200] with the two tokens, ... *)
Definition grants : Provider :=
  fun _ _ =>
    inr (mkHttpResponse 200 "{'access_token':'tok_1','refresh_token':'ref_1'}"
           (inr (JObject [("access_token", JString "tok_1");
                          ("refresh_token", JString "ref_1")]))).

(** ... or [401], the client being unknown to it, ... *)
Definition refuses : Provider :=
  fun _ _ =>
    inr (mkHttpResponse 401 "{'error':'invalid_client'}"
           (inr (JObject [("error", JString "invalid_client")]))).

(** ... or cannot be reached. *)
Definition unreachable : Provider :=
  fun _ _ => inl (RequestException "connection refused").

End Scenario.

(** ** What the callback answers when it rejects

    The response of [callback()] for each terminal outcome other than
    [Valid]; the markup is the handler's. *)

Module Rejections.

Definition rejection (o : Outcome) : option Response :=
  match o with
  | SessionExpired =>
      Some (mkResponse
              (Html "<h1>Error</h1><p>Session expired. Please start over from the home page.</p>")
              400)
  | AuthorizationDenied e =>
      Some (mkResponse
              (Html ("<h1>Authorization Error</h1><p>Error: " +:+ e +:+ "</p>"))
              400)
  | StateMismatch =>
      Some (mkResponse (Html "<h1>Security Error</h1><p>Invalid state token</p>") 400)
  | MissingCode =>
      Some (mkResponse (Html "<h1>Error</h1><p>No authorization code received</p>") 400)
  | Valid _ => None
  end.

End Rejections.
Export Rejections.

(** ** Shapes of calls and sessions

    The form of the calls that [callback()] makes and of the sessions that
    [authorize()] writes, read off the two handlers; the invariants below
    are stated with them. *)

Module Shapes.

(** A call as [callback()] makes it: to the token endpoint, with the five
    fields of the form, none of the three that vary being empty. *)
Definition exchange_call (call : PostCall) : Prop :=
  exists client_id client_secret code,
    client_id <> "" /\ client_secret <> "" /\ code <> "" /\
    call = mkPostCall "https://api.monzo.com/oauth2/token"
             [ ("grant_type", "authorization_code");
               ("client_id", client_id);
               ("client_secret", client_secret);
               ("redirect_uri", "http://localhost:8080/callback");
               ("code", code) ].

(** A session as the handlers leave it: empty, or the two keys that
    [authorize()] sets, with non-empty values. *)
Definition credentials_only (s : gmap string string) : Prop :=
  s = ∅ \/
  exists client_id client_secret,
    client_id <> "" /\ client_secret <> "" /\
    s = <["client_secret" := client_secret]> (<["client_id" := client_id]> ∅).

(** The statuses the handlers answer with. *)
Definition known_status (n : Z) : Prop := n = 200 \/ n = 400 \/ n = 500.

End Shapes.
Export Shapes.

(** ** More scenarios *)

Module Answers.

(** The provider answers [200] with a body that is no JSON, ... *)
Definition garbles : Provider :=
  fun _ _ =>
    inr (mkHttpResponse 200 "<html>" (inl (RequestException "Expecting value"))).

(** ... with a JSON array, ... *)
Definition answers_array : Provider :=
  fun _ _ => inr (mkHttpResponse 200 "[]" (inr (JArray []))).

(** ... or with an object without [access_token]. *)
Definition omits_access_token : Provider :=
  fun _ _ =>
    inr (mkHttpResponse 200 "{'token_type':'Bearer'}"
           (inr (JObject [("token_type", JString "Bearer")]))).

(** A session with a [client_id] alone. *)
Definition half_session : World := mkWorld (<["client_id" := "abc"]> ∅) [].

End Answers.

(** * Properties *)

(** ** Strings *)

Lemma append_cons (x : ascii) (a b : string) :
  String x a +:+ b = String x (a +:+ b).
Proof. reflexivity. Qed.

Lemma append_assoc (a b c : string) : (a +:+ b) +:+ c = a +:+ (b +:+ c).
Proof.
  induction a as [|x a IH]; [reflexivity|].
  rewrite !append_cons. now rewrite IH.
Qed.

Lemma append_nil_r (a : string) : a +:+ "" = a.
Proof.
  induction a as [|x a IH]; [reflexivity|].
  rewrite append_cons. now rewrite IH.
Qed.

Lemma contains_here (x post : string) : contains x (x +:+ post).
Proof. exists "", post. reflexivity. Qed.

Lemma contains_end (x : string) : contains x x.
Proof. exists "", "". now rewrite append_nil_r. Qed.

Lemma contains_skip (x a s : string) : contains x s -> contains x (a +:+ s).
Proof.
  intros (pre & post & ->). exists (a +:+ pre), post.
  now rewrite append_assoc.
Qed.

(** Finds [x] among the pieces of a concatenation. *)
Ltac find_piece :=
  solve [ repeat first [ apply contains_here | apply contains_end | apply contains_skip ] ].

Lemma truthy_is_nonempty (x : option string) :
  truthy x = match nonempty x with Some _ => true | None => false end.
Proof. now destruct x as [[|a s]|]. Qed.

Lemma nonempty_Some (x : option string) (s : string) :
  nonempty x = Some s -> x = Some s /\ text_of x = s.
Proof. destruct x as [[|a r]|]; simpl; try discriminate. now intros [= <-]. Qed.

(** ** Running the handlers *)

Section Runs.

Variable STATE_TOKEN : string.
Variable py_repr : json -> string.

Local Abbreviation exchange := (Server.exchange py_repr).
Local Abbreviation callback := (Server.callback STATE_TOKEN py_repr).
Local Abbreviation api_token := (Server.api_token STATE_TOKEN).
Local Abbreviation authorize := (Server.authorize STATE_TOKEN).
Local Abbreviation handle := (Server.handle STATE_TOKEN py_repr).
Local Abbreviation generate_auth_url := (Server.generate_auth_url STATE_TOKEN).

(** The exchange posts once, whatever the provider answers, and leaves the
    session alone. *)
Lemma run_exchange_world (provider : Provider) (i k c : string) (w : World) :
  snd (run provider (exchange i k c) w)
  = mkWorld (session w) (posts w ++ [token_request i k c]).
Proof.
  unfold Server.exchange, token_request.
  cbn [requests_post bind try_except run session posts].
  destruct (provider (posts w) _) as [e | resp];
    cbn [requests_post bind try_except run session posts].
  - destruct e; reflexivity.
  - destruct (status_code resp =? 200); [|reflexivity].
    unfold response_json. destruct (json_ resp) as [e | v];
      cbn [bind try_except run].
    + destruct e; reflexivity.
    + destruct v; reflexivity.
Qed.

(** The callback, case by case of the reference state machine. *)
Lemma run_callback (provider : Provider) (args : MultiDict) (w : World) :
  run provider (callback args) w =
  match validate STATE_TOKEN (Load (session w)) (params_of args) with
  | Valid c =>
      run provider
          (exchange (text_of (session w !! "client_id"))
                    (text_of (session w !! "client_secret")) c) w
  | o => (from_option inr (inl (OtherException "")) (rejection o), w)
  end.
Proof.
  unfold Server.callback, validate, Load, params_of, session_get.
  cbn [bind run cb_error cb_state cb_code].
  rewrite !truthy_is_nonempty.
  destruct (nonempty (session w !! "client_id")) as [i|]; [|reflexivity].
  destruct (nonempty (session w !! "client_secret")) as [k|]; [|reflexivity].
  cbn [negb orb].
  destruct (nonempty (get "error" args)) as [e|] eqn:He.
  - apply nonempty_Some in He as [_ ->]. reflexivity.
  - destruct (decide (get "state" args = Some STATE_TOKEN)) as [Hs|Hs];
      [rewrite (bool_decide_eq_true_2 _ Hs)
      |rewrite (bool_decide_eq_false_2 _ Hs); reflexivity].
    cbn [negb]. destruct (nonempty (get "code" args)) as [c|] eqn:Hc;
      [|reflexivity].
    apply nonempty_Some in Hc as [_ ->]. reflexivity.
Qed.

(** What the exchange answers, by the provider's answer. *)
Lemma run_exchange (provider : Provider) (i k c : string) (w : World) :
  fst (run provider (exchange i k c) w) =
  match provider (posts w) (token_request i k c) with
  | inl (RequestException d) =>
      inr (mkResponse (Html ("<h1>Request Error</h1><p>Error: " +:+ d +:+ "</p>")) 500)
  | inl e => inl e
  | inr resp =>
      if status_code resp =? 200 then
        match json_ resp with
        | inl (RequestException d) =>
            inr (mkResponse (Html ("<h1>Request Error</h1><p>Error: " +:+ d +:+ "</p>")) 500)
        | inl e => inl e
        | inr (JObject items) =>
            let access_token := from_option id JNull (items_get "access_token" items) in
            inr (mkResponse
                   (Html (tokens_page
                            (py_format py_repr access_token)
                            (py_format py_repr
                               (from_option id
                                  (JString "No refresh token (non-confidential client)")
                                  (items_get "refresh_token" items)))
                            i k
                            (py_format py_repr access_token)
                            (py_format py_repr
                               (from_option id (JString "")
                                  (items_get "refresh_token" items)))))
                   200)
        | inr _ => inl (AttributeError "object has no attribute 'get'")
        end
      else
        inr (mkResponse
               (Html ("<h1>Token Exchange Failed</h1><p>Status: " +:+
                      pretty (status_code resp) +:+
                      "</p><p>Error: " +:+ text resp +:+ "</p>"))
               400)
  end.
Proof.
  unfold Server.exchange, token_request.
  cbn [requests_post bind try_except run session posts].
  destruct (provider (posts w) _) as [e | resp];
    cbn [requests_post bind try_except run session posts].
  - destruct e; reflexivity.
  - destruct (status_code resp =? 200); [|reflexivity].
    unfold response_json. destruct (json_ resp) as [e | v];
      cbn [bind try_except run].
    + destruct e; reflexivity.
    + destruct v; reflexivity.
Qed.

Lemma run_callback_world (provider : Provider) (args : MultiDict) (w : World) :
  snd (run provider (callback args) w) =
  match validate STATE_TOKEN (Load (session w)) (params_of args) with
  | Valid c =>
      mkWorld (session w)
              (posts w ++ [token_request (text_of (session w !! "client_id"))
                                         (text_of (session w !! "client_secret")) c])
  | _ => w
  end.
Proof.
  rewrite run_callback.
  destruct (validate _ _ _); try reflexivity.
  apply run_exchange_world.
Qed.

Lemma run_callback_session (provider : Provider) (args : MultiDict) (w : World) :
  session (snd (run provider (callback args) w)) = session w.
Proof. rewrite run_callback_world. now destruct (validate _ _ _). Qed.

Lemma run_api_token (provider : Provider) (w : World) :
  run provider api_token w =
  (inr (if truthy (session w !! "client_id") then
          mkResponse
            (Json [ ("auth_url", generate_auth_url (text_of (session w !! "client_id")));
                    ("redirect_uri", REDIRECT_URI);
                    ("state_token", STATE_TOKEN) ])
            200
        else mkResponse (Json [("error", "No client credentials in session")]) 400),
   w).
Proof.
  unfold Server.api_token, session_get. cbn [bind run].
  now destruct (truthy (session w !! "client_id")).
Qed.

Lemma run_authorize (provider : Provider) (form : MultiDict) (w : World) :
  run provider (authorize form) w =
  match nonempty (get "client_id" form), nonempty (get "client_secret" form) with
  | Some i, Some k =>
      (inr (mkResponse (Html (redirect_page (generate_auth_url i))) 200),
       mkWorld (<["client_secret" := k]> (<["client_id" := i]> (session w))) (posts w))
  | _, _ =>
      (inr (mkResponse
              (Html "<h1>Error</h1><p>Both Client ID and Client Secret are required</p>")
              400),
       w)
  end.
Proof.
  unfold Server.authorize. rewrite !truthy_is_nonempty.
  destruct (nonempty (get "client_id" form)) as [i|] eqn:Hi; [|reflexivity].
  destruct (nonempty (get "client_secret" form)) as [k|] eqn:Hk; [|reflexivity].
  apply nonempty_Some in Hi as [_ ->]. apply nonempty_Some in Hk as [_ ->].
  reflexivity.
Qed.

Lemma nonempty_idem (x : option string) (s : string) :
  nonempty x = Some s -> nonempty (Some s) = Some s.
Proof. destruct x as [[|a r]|]; simpl; try discriminate. now intros [= <-]. Qed.

(** What [Load] finds after a successful [authorize()]. *)
Lemma Load_after_save (s : gmap string string) (x y : option string) (i k : string) :
  nonempty x = Some i -> nonempty y = Some k ->
  Load (<["client_secret" := k]> (<["client_id" := i]> s)) = Some (mkCredentials i k).
Proof.
  intros Hi Hk. unfold Load.
  rewrite lookup_insert_ne by discriminate.
  rewrite !lookup_insert_eq.
  now rewrite (nonempty_idem _ _ Hi), (nonempty_idem _ _ Hk).
Qed.

Lemma reachable_paired (w : World) :
  reachable STATE_TOKEN py_repr w -> paired (session w).
Proof.
  induction 1 as [|p r w Hw IH]; [reflexivity|].
  destruct r as [|form|args|]; cbn [Server.handle].
  - exact IH.
  - rewrite run_authorize.
    destruct (nonempty (get "client_id" form)) as [i|] eqn:Hi; [|exact IH].
    destruct (nonempty (get "client_secret" form)) as [k|] eqn:Hk; [|exact IH].
    unfold paired. cbn [snd session].
    rewrite lookup_insert_ne by discriminate. rewrite !lookup_insert_eq.
    rewrite !truthy_is_nonempty.
    now rewrite (nonempty_idem _ _ Hi), (nonempty_idem _ _ Hk).
  - unfold paired. now rewrite run_callback_session.
  - now rewrite run_api_token.
Qed.

(** ** The callback validator *)

(** C1. Every GET /callback follows the reference state machine, the
    checks in its order: without the two credentials in the session the
    answer is the SessionExpired page (400), whatever the query; else with
    a non-empty [error] it is the AuthorizationDenied page (400), which
    contains the provider's error string; else with [state] absent or
    different from the process token it is the StateMismatch page (400);
    else with [code] absent or empty it is the MissingCode page (400); else
    the outcome is Valid and the handler goes on to the token exchange
    with the credentials of the session and that code. *)
Theorem callback_follows_reference (provider : Provider) (args : MultiDict) (w : World) :
  let o := validate STATE_TOKEN (Load (session w)) (params_of args) in
  match rejection o with
  | Some r =>
      run provider (callback args) w = (inr r, w) /\ status r = 400
  | None =>
      exists creds c,
        Load (session w) = Some creds /\ o = Valid c /\
        run provider (callback args) w
        = run provider (exchange (cred_client_id creds) (cred_client_secret creds) c) w /\
        posts (snd (run provider (callback args) w))
        = posts w ++ [token_request (cred_client_id creds) (cred_client_secret creds) c]
  end /\
  match o with
  | AuthorizationDenied e =>
      exists r, fst (run provider (callback args) w) = inr r /\
                contains e (body_text (body r))
  | _ => True
  end.
Proof.
  intros o. pose proof (run_callback provider args w) as Hrun.
  pose proof (run_callback_world provider args w) as Hworld.
  fold o in Hrun, Hworld.
  split.
  - destruct o as [| e | | | c] eqn:Ho; cbn [rejection];
      try (split; [exact Hrun | reflexivity]).
    subst o. unfold validate in Ho.
    destruct (Load (session w)) as [[i k]|] eqn:HL; [|discriminate].
    exists (mkCredentials i k), c. cbn [cred_client_id cred_client_secret].
    assert (text_of (session w !! "client_id") = i /\
            text_of (session w !! "client_secret") = k) as [Hi Hk].
    { unfold Load in HL.
      destruct (nonempty (session w !! "client_id")) as [i'|] eqn:E1; [|discriminate].
      destruct (nonempty (session w !! "client_secret")) as [k'|] eqn:E2; [|discriminate].
      injection HL as -> ->.
      split; [now apply nonempty_Some in E1 | now apply nonempty_Some in E2]. }
    rewrite Hi, Hk in Hrun, Hworld.
    repeat split; [exact Hrun | now rewrite Hworld].
  - destruct o as [| e | | | c]; try exact I.
    rewrite Hrun. cbn [rejection from_option fst]. eexists. split; [reflexivity|].
    cbn [body body_text]. find_piece.
Qed.

(** C2. A GET /callback whose validation does not end in Valid, and so
    any one whose [state] is not the process token, makes no call to the
    token endpoint: the log of calls is the same after the request. *)
Theorem no_exchange_unless_valid (provider : Provider) (args : MultiDict) (w : World) :
  is_valid (validate STATE_TOKEN (Load (session w)) (params_of args)) = false \/
  get "state" args <> Some STATE_TOKEN ->
  posts (snd (run provider (callback args) w)) = posts w /\
  (length (posts (snd (run provider (callback args) w))) - length (posts w) = 0)%nat.
Proof.
  intros H.
  assert (is_valid (validate STATE_TOKEN (Load (session w)) (params_of args)) = false) as Hv.
  { destruct H as [H | H]; [exact H|].
    unfold validate, params_of. cbn [cb_state cb_error cb_code].
    destruct (Load (session w)); [|reflexivity].
    destruct (nonempty (get "error" args)); [reflexivity|].
    destruct (decide (get "state" args = Some STATE_TOKEN)); [contradiction|reflexivity]. }
  rewrite run_callback_world.
  destruct (validate _ _ _); try discriminate; split; try reflexivity; lia.
Qed.

(** ** The session *)

(** C10. GET /callback and GET /api/token leave the session as it was,
    whatever the request and the provider's answer; of all the handlers
    only POST /authorize changes it, and it does on a valid form. *)
Theorem only_authorize_writes_session (provider : Provider) (w : World) :
  (forall args, session (snd (run provider (callback args) w)) = session w) /\
  session (snd (run provider api_token w)) = session w /\
  (forall r,
      match r with
      | POST_authorize _ => True
      | _ => session (snd (run provider (handle r) w)) = session w
      end) /\
  session (snd (run provider
                    (authorize [("client_id", "abc"); ("client_secret", "xyz")])
                    (mkWorld ∅ (posts w))))
  <> session (mkWorld ∅ (posts w)).
Proof.
  split; [|split; [|split]].
  - intros args. apply run_callback_session.
  - now rewrite run_api_token.
  - intros [|form|args|]; cbn [Server.handle]; try exact I.
    + reflexivity.
    + apply run_callback_session.
    + now rewrite run_api_token.
  - rewrite run_authorize. cbn. intros Heq.
    assert (H : (∅ : gmap string string) !! "client_id" = Some "abc").
    { rewrite <- Heq. rewrite lookup_insert_ne by discriminate.
      apply lookup_insert_eq. }
    rewrite lookup_empty in H. discriminate.
Qed.

(** C6. POST /authorize: when [client_id] or [client_secret] is missing
    or empty the answer is a 400 and the session is untouched; otherwise
    the two values are written into the session, over what it held, so
    that the session holds exactly them, and the answer is the page that
    sends the browser to the authorization URL of the submitted
    [client_id]. *)
Theorem authorize_saves_and_redirects (provider : Provider) (form : MultiDict) (w : World) :
  match nonempty (get "client_id" form), nonempty (get "client_secret" form) with
  | Some i, Some k =>
      let w' := snd (run provider (authorize form) w) in
      session w' = <["client_secret" := k]> (<["client_id" := i]> (session w)) /\
      session w' !! "client_id" = Some i /\
      session w' !! "client_secret" = Some k /\
      Load (session w') = Some (mkCredentials i k) /\
      fst (run provider (authorize form) w)
      = inr (mkResponse (Html (redirect_page (generate_auth_url i))) 200) /\
      contains ("window.location.href = " +:+ dq +:+ generate_auth_url i +:+ dq)
               (redirect_page (generate_auth_url i))
  | _, _ =>
      exists r, run provider (authorize form) w = (inr r, w) /\ status r = 400
  end.
Proof.
  rewrite run_authorize.
  destruct (nonempty (get "client_id" form)) as [i|] eqn:Hi;
    [|eexists; split; reflexivity].
  destruct (nonempty (get "client_secret" form)) as [k|] eqn:Hk;
    [|eexists; split; reflexivity].
  cbn [fst snd session].
  split; [reflexivity|].
  split; [rewrite lookup_insert_ne by discriminate; apply lookup_insert_eq|].
  split; [apply lookup_insert_eq|].
  split; [exact (Load_after_save _ _ _ _ _ Hi Hk)|].
  split; [reflexivity|].
  unfold redirect_page.
  exists ("
    <script>
        "), (";
    </script>
    <h1>Redirecting to Monzo...</h1>
    <p>If you are not redirected automatically, <a href=" +:+
  dq +:+
  generate_auth_url i +:+
  dq +:+
  ">click here</a>.</p>
    ").
  rewrite !append_assoc. reflexivity.
Qed.

(** ** The JSON endpoint *)

(** C7. GET /api/token, for a session that the handlers have produced:
    without credentials the answer is a 400 with a JSON error; with
    credentials it is the JSON object of exactly [auth_url], the
    authorization URL of the session's [client_id], [redirect_uri], the
    fixed redirect URI, and [state_token], the process token. *)
Theorem api_token_answers (provider : Provider) (w : World) :
  reachable STATE_TOKEN py_repr w ->
  match Load (session w) with
  | None =>
      run provider api_token w
      = (inr (mkResponse (Json [("error", "No client credentials in session")]) 400), w)
  | Some creds =>
      run provider api_token w
      = (inr (mkResponse
                (Json [ ("auth_url", generate_auth_url (cred_client_id creds));
                        ("redirect_uri", REDIRECT_URI);
                        ("state_token", STATE_TOKEN) ])
                200), w)
  end.
Proof.
  intros Hw. apply reachable_paired in Hw. unfold paired in Hw.
  rewrite run_api_token. unfold Load.
  rewrite !truthy_is_nonempty in *.
  destruct (nonempty (session w !! "client_id")) as [i|] eqn:Hi.
  - destruct (nonempty (session w !! "client_secret")) as [k|]; [|discriminate].
    apply nonempty_Some in Hi as [_ ->]. reflexivity.
  - reflexivity.
Qed.

(** C8. Two GET /api/token in one process and one session whose
    credentials are the same at both calls get the same answer, hence the
    same [auth_url] and the same [state_token]: the token is a constant of
    the process, and the handler leaves the session as it was. *)
Theorem api_token_idempotent (provider1 provider2 : Provider) (w1 w2 : World) :
  session w1 !! "client_id" = session w2 !! "client_id" ->
  session w1 !! "client_secret" = session w2 !! "client_secret" ->
  fst (run provider1 api_token w1) = fst (run provider2 api_token w2) /\
  fst (run provider2 api_token (snd (run provider1 api_token w1)))
  = fst (run provider1 api_token w1).
Proof.
  intros Hid _. rewrite !run_api_token. cbn [fst snd].
  now rewrite Hid.
Qed.

(** ** The token exchange *)

Lemma Load_Some (s : gmap string string) (creds : SessionCredentials) :
  Load s = Some creds ->
  text_of (s !! "client_id") = cred_client_id creds /\
  text_of (s !! "client_secret") = cred_client_secret creds.
Proof.
  unfold Load. intros HL.
  destruct (nonempty (s !! "client_id")) as [i|] eqn:E1; [|discriminate].
  destruct (nonempty (s !! "client_secret")) as [k|] eqn:E2; [|discriminate].
  injection HL as <-. cbn [cred_client_id cred_client_secret].
  split; [now apply nonempty_Some in E1 | now apply nonempty_Some in E2].
Qed.

(** A valid callback answers what the exchange answers. *)
Lemma run_valid_callback (provider : Provider) (args : MultiDict) (w : World)
    (creds : SessionCredentials) (c : string) :
  Load (session w) = Some creds ->
  validate STATE_TOKEN (Load (session w)) (params_of args) = Valid c ->
  run provider (callback args) w
  = run provider (exchange (cred_client_id creds) (cred_client_secret creds) c) w.
Proof.
  intros HL Hv. rewrite run_callback, Hv.
  now destruct (Load_Some _ _ HL) as [-> ->].
Qed.

(** C5. In the exchange of a GET /callback: a provider status other than
    200 gives a 400 whose page shows that status and the raw body of the
    provider's response; a [requests.RequestException] gives a 500 whose
    page shows the description of the failure; and whatever the request
    and the provider's answer, at most one POST is made. *)
Theorem exchange_failures_surface (provider : Provider) (args : MultiDict) (w : World) :
  (length (posts (snd (run provider (callback args) w))) <= S (length (posts w)))%nat /\
  forall creds c,
    Load (session w) = Some creds ->
    validate STATE_TOKEN (Load (session w)) (params_of args) = Valid c ->
    match provider (posts w)
                   (token_request (cred_client_id creds) (cred_client_secret creds) c) with
    | inr resp =>
        if status_code resp =? 200 then True
        else
          exists r, fst (run provider (callback args) w) = inr r /\
                    status r = 400 /\
                    contains (pretty (status_code resp)) (body_text (body r)) /\
                    contains (text resp) (body_text (body r))
    | inl (RequestException description) =>
        exists r, fst (run provider (callback args) w) = inr r /\
                  status r = 500 /\
                  contains description (body_text (body r))
    | inl _ => True
    end.
Proof.
  split.
  - rewrite run_callback_world.
    destruct (validate _ _ _); cbn [posts]; rewrite ?length_app; cbn [length]; lia.
  - intros creds c HL Hv.
    rewrite (run_valid_callback provider args w creds c HL Hv), run_exchange.
    destruct (provider (posts w) _) as [e | resp].
    + destruct e; try exact I.
      eexists. split; [reflexivity|]. split; [reflexivity|].
      cbn [body body_text]. find_piece.
    + destruct (status_code resp =? 200); [exact I|].
      eexists. split; [reflexivity|]. split; [reflexivity|].
      cbn [body body_text]. split; find_piece.
Qed.

(** C9. When the provider answers 200 with a JSON object that has an
    [access_token], the callback answers 200 with the page of the tokens,
    which contains the access token; when the object has no
    [refresh_token] the answer is the same page, still a 200, with the
    notice that there is no refresh token in its place, and when it has
    one the page contains it. *)
Theorem exchange_success_page (provider : Provider) (args : MultiDict) (w : World)
    (creds : SessionCredentials) (c : string) (resp : HttpResponse)
    (items : list (string * json)) (token : string) :
  Load (session w) = Some creds ->
  validate STATE_TOKEN (Load (session w)) (params_of args) = Valid c ->
  provider (posts w) (token_request (cred_client_id creds) (cred_client_secret creds) c)
  = inr resp ->
  status_code resp = 200 ->
  json_ resp = inr (JObject items) ->
  items_get "access_token" items = Some (JString token) ->
  exists r,
    fst (run provider (callback args) w) = inr r /\
    status r = 200 /\
    contains token (body_text (body r)) /\
    match items_get "refresh_token" items with
    | None =>
        contains "No refresh token (non-confidential client)" (body_text (body r))
    | Some v => contains (py_format py_repr v) (body_text (body r))
    end.
Proof.
  intros HL Hv Hp Hs Hj Ha.
  rewrite (run_valid_callback provider args w creds c HL Hv), run_exchange.
  rewrite Hp, Hs, Hj, Ha. cbn [Z.eqb Pos.eqb from_option id py_format].
  eexists. split; [reflexivity|]. split; [reflexivity|].
  cbn [body body_text]. unfold tokens_page.
  split; [find_piece|].
  destruct (items_get "refresh_token" items) as [v|]; cbn [from_option id py_format];
    find_piece.
Qed.

(** ** The authorization URL *)


End Runs.

(** ** Reading the authorization URL back *)

Section Query.

Import UrlQuery.

Lemma occurs_app (c : ascii) (a b : string) :
  occurs c (a +:+ b) = occurs c a || occurs c b.
Proof.
  induction a as [|x a IH]; [reflexivity|].
  rewrite append_cons. cbn [occurs]. now rewrite IH, orb_assoc.
Qed.


Lemma after_app_hit (c : ascii) (a a' b : string) :
  after c a = Some a' -> after c (a +:+ b) = Some (a' +:+ b).
Proof.
  induction a as [|x a IH]; [discriminate|].
  rewrite append_cons. cbn [after].
  destruct (Ascii.eqb x c); [now intros [= ->] | exact IH].
Qed.

Lemma split_on_app (c : ascii) (a r : string) :
  occurs c a = false -> split_on c (a +:+ String c r) = a :: split_on c r.
Proof.
  induction a as [|x a IH].
  - intros _. change ("" +:+ String c r) with (String c r).
    cbn [split_on]. now rewrite Ascii.eqb_refl.
  - cbn [occurs]. rewrite append_cons. cbn [split_on].
    intros [-> Ha]%orb_false_iff. now rewrite IH.
Qed.

Lemma decode_free (s : string) :
  occurs "+" s = false -> occurs "%" s = false -> decode s = s.
Proof.
  induction s as [|x s IH]; [reflexivity|].
  cbn [occurs decode].
  intros [-> Hp]%orb_false_iff [-> Hq]%orb_false_iff.
  now rewrite IH.
Qed.

Lemma plain_free (s : string) :
  plain s = true ->
  occurs "&" s = false /\ occurs "#" s = false /\
  occurs "%" s = false /\ occurs "+" s = false.
Proof.
  unfold plain. rewrite !andb_true_iff, !negb_true_iff. tauto.
Qed.

Lemma before_free (c : ascii) (s : string) :
  occurs c s = false -> before c s = s.
Proof.
  induction s as [|x s IH]; [reflexivity|].
  cbn [occurs before]. intros [-> Hs]%orb_false_iff. now rewrite IH.
Qed.

Lemma split_on_free (c : ascii) (s : string) :
  occurs c s = false -> split_on c s = [s].
Proof.
  induction s as [|x s IH]; [reflexivity|].
  cbn [occurs split_on]. intros [-> Hs]%orb_false_iff. now rewrite IH.
Qed.



(** When neither the [client_id] nor the process token has a reserved
    character, the query of the URL reads back as the four parameters. *)
Lemma plain_url_parameters (STATE_TOKEN client_id : string) :
  plain client_id = true -> plain STATE_TOKEN = true ->
  params (generate_auth_url STATE_TOKEN client_id)
  = [ ("client_id", client_id);
      ("redirect_uri", REDIRECT_URI);
      ("response_type", "code");
      ("state", STATE_TOKEN) ].
Proof.
  intros (Ca & Ch & Cp & Cl)%plain_free (Ta & Th & Tp & Tl)%plain_free.
  unfold params, query_of, generate_auth_url.
  rewrite before_free
    by (rewrite !occurs_app, Ch, Th; reflexivity).
  rewrite (after_app_hit "?" "https://auth.monzo.com/?" "") by reflexivity.
  cbn [default from_option id].
  change ("" +:+ "client_id=" +:+ client_id +:+ "&" +:+
          "redirect_uri=" +:+ REDIRECT_URI +:+ "&" +:+
          "response_type=code&" +:+ "state=" +:+ STATE_TOKEN)
    with (("client_id=" +:+ client_id) +:+
          String "&" (("redirect_uri=" +:+ REDIRECT_URI) +:+
          String "&" ("response_type=code" +:+
          String "&" ("state=" +:+ STATE_TOKEN)))).
  unfold parse_query.
  rewrite (split_on_app "&" ("client_id=" +:+ client_id))
    by (now rewrite occurs_app, Ca).
  rewrite (split_on_app "&" ("redirect_uri=" +:+ REDIRECT_URI)) by reflexivity.
  rewrite (split_on_app "&" "response_type=code") by reflexivity.
  rewrite split_on_free by (now rewrite occurs_app, Ta).
  change (List.filter _ _)
    with ["client_id=" +:+ client_id; "redirect_uri=" +:+ REDIRECT_URI;
          "response_type=code"; "state=" +:+ STATE_TOKEN].
  change (map parse_pair _)
    with [("client_id", decode client_id); ("redirect_uri", REDIRECT_URI);
          ("response_type", "code"); ("state", decode STATE_TOKEN)].
  now rewrite !decode_free.
Qed.

End Query.

(** ** The scenarios *)

Section Scenarios.

Import Scenario.

Local Abbreviation callback := (Server.callback token repr).
Local Abbreviation api_token := (Server.api_token token).
Local Abbreviation authorize := (Server.authorize token).

(** Scenario C: a callback with a wrong [state] makes no call. *)
Lemma wrong_state_makes_no_call :
  get "state" wrong_state_callback <> Some token /\
  posts (snd (run grants (callback wrong_state_callback) authorized)) = posts authorized /\
  (length (posts (snd (run grants (callback wrong_state_callback) authorized)))
   - length (posts authorized) = 0)%nat.
Proof.
  assert (H : get "state" wrong_state_callback <> Some token)
    by (vm_compute; discriminate).
  split; [exact H|].
  apply (no_exchange_unless_valid token repr grants wrong_state_callback authorized).
  right. exact H.
Defined.

(** Scenario D: the provider answers 401, the page reports the status and
    the body. *)
Lemma refused_exchange_is_reported :
  Load (session authorized) = Some (mkCredentials "abc" "xyz") /\
  validate token (Load (session authorized)) (params_of good_callback) = Valid "good123" /\
  exists r, fst (run refuses (callback good_callback) authorized) = inr r /\
            status r = 400 /\
            contains "401" (body_text (body r)) /\
            contains "{'error':'invalid_client'}" (body_text (body r)).
Proof.
  split; [vm_compute; reflexivity|]. split; [vm_compute; reflexivity|].
  apply (proj2 (exchange_failures_surface token repr refuses good_callback authorized)
               (mkCredentials "abc" "xyz") "good123");
    vm_compute; reflexivity.
Defined.

(** After the form is submitted to an empty session, the JSON endpoint
    gives the three fields. *)
Lemma api_token_after_authorize :
  reachable token repr (snd (run grants (handle token repr (POST_authorize form))
                                 (mkWorld ∅ []))) /\
  run grants api_token (snd (run grants (handle token repr (POST_authorize form))
                                 (mkWorld ∅ [])))
  = (inr (mkResponse
            (Json [ ("auth_url", generate_auth_url token "abc");
                    ("redirect_uri", REDIRECT_URI);
                    ("state_token", token) ])
            200),
     authorized).
Proof.
  assert (H : reachable token repr
                (snd (run grants (handle token repr (POST_authorize form))
                          (mkWorld ∅ []))))
    by (apply reachable_request, reachable_start).
  split; [exact H|].
  exact (api_token_answers token repr grants _ H).
Defined.

(** The JSON endpoint asked before and after a callback gives the same
    answer. *)
Lemma api_token_twice :
  let later := snd (run grants (callback good_callback) authorized) in
  session authorized !! "client_id" = session later !! "client_id" /\
  session authorized !! "client_secret" = session later !! "client_secret" /\
  fst (run grants api_token authorized) = fst (run refuses api_token later).
Proof.
  intros later.
  assert (H1 : session authorized !! "client_id" = session later !! "client_id")
    by (vm_compute; reflexivity).
  assert (H2 : session authorized !! "client_secret" = session later !! "client_secret")
    by (vm_compute; reflexivity).
  split; [exact H1|]. split; [exact H2|].
  exact (proj1 (api_token_idempotent token grants refuses authorized later H1 H2)).
Defined.

(** Scenario B: the provider grants the tokens, the page shows them. *)
Lemma granted_tokens_are_shown :
  Load (session authorized) = Some (mkCredentials "abc" "xyz") /\
  validate token (Load (session authorized)) (params_of good_callback) = Valid "good123" /\
  exists r, fst (run grants (callback good_callback) authorized) = inr r /\
            status r = 200 /\
            contains "tok_1" (body_text (body r)) /\
            contains "ref_1" (body_text (body r)).
Proof.
  split; [vm_compute; reflexivity|]. split; [vm_compute; reflexivity|].
  apply (exchange_success_page token repr grants good_callback authorized
           (mkCredentials "abc" "xyz") "good123"
           (mkHttpResponse 200 "{'access_token':'tok_1','refresh_token':'ref_1'}"
              (inr (JObject [("access_token", JString "tok_1");
                             ("refresh_token", JString "ref_1")])))
           [("access_token", JString "tok_1"); ("refresh_token", JString "ref_1")]
           "tok_1");
    vm_compute; reflexivity.
Defined.




(** The checks come in order: without credentials the session page
    comes before anything in the query is looked at, and the provider's
    error comes before the state. *)
Example session_is_checked_first :
  run grants (callback [("error", "access_denied"); ("state", "wrong")]) (mkWorld ∅ [])
  = (inr (mkResponse
            (Html "<h1>Error</h1><p>Session expired. Please start over from the home page.</p>")
            400),
     mkWorld ∅ []).
Proof. vm_compute. reflexivity. Qed.

Example error_is_checked_before_state :
  run grants (callback [("error", "access_denied"); ("state", "wrong")]) authorized
  = (inr (mkResponse
            (Html "<h1>Authorization Error</h1><p>Error: access_denied</p>")
            400),
     authorized).
Proof. vm_compute. reflexivity. Qed.

Example state_is_checked_before_code :
  run grants (callback [("state", "wrong")]) authorized
  = (inr (mkResponse (Html "<h1>Security Error</h1><p>Invalid state token</p>") 400),
     authorized).
Proof. vm_compute. reflexivity. Qed.

Example code_is_checked_last :
  run grants (callback [("state", "tok"); ("code", "")]) authorized
  = (inr (mkResponse (Html "<h1>Error</h1><p>No authorization code received</p>") 400),
     authorized).
Proof. vm_compute. reflexivity. Qed.

(** The provider cannot be reached: a 500 with the description, after one
    call. *)
Example unreachable_provider_is_reported :
  run unreachable (callback good_callback) authorized
  = (inr (mkResponse
            (Html "<h1>Request Error</h1><p>Error: connection refused</p>")
            500),
     mkWorld (session authorized) [token_request "abc" "xyz" "good123"]).
Proof. vm_compute. reflexivity. Qed.

(** A 200 whose body is JSON but no object: [get] is missing, and the
    [except] clause does not catch the error. *)
Example array_body_is_not_handled :
  fst (run (fun _ _ => inr (mkHttpResponse 200 "[]" (inr (JArray []))))
           (callback good_callback) authorized)
  = inl (AttributeError "object has no attribute 'get'").
Proof. vm_compute. reflexivity. Qed.

(** The URL for a [client_id] with a reserved character, and what is read
    back from it. *)
Example url_of_ampersand_client_id :
  generate_auth_url token "a&b"
  = "https://auth.monzo.com/?client_id=a&b&redirect_uri=http://localhost:8080/callback&response_type=code&state=tok" /\
  UrlQuery.params (generate_auth_url token "a&b")
  = [ ("client_id", "a"); ("b", "");
      ("redirect_uri", "http://localhost:8080/callback");
      ("response_type", "code"); ("state", "tok") ].
Proof. split; vm_compute; reflexivity. Qed.

End Scenarios.

(** * Further properties of the handlers *)

Section Sessions.

Variable STATE_TOKEN : string.
Variable py_repr : json -> string.

Local Abbreviation exchange := (Server.exchange py_repr).
Local Abbreviation callback := (Server.callback STATE_TOKEN py_repr).
Local Abbreviation api_token := (Server.api_token STATE_TOKEN).
Local Abbreviation authorize := (Server.authorize STATE_TOKEN).
Local Abbreviation handle := (Server.handle STATE_TOKEN py_repr).
Local Abbreviation generate_auth_url := (Server.generate_auth_url STATE_TOKEN).
Local Abbreviation reachable := (Server.reachable STATE_TOKEN py_repr).

Lemma nonempty_not_empty (x : option string) (s : string) :
  nonempty x = Some s -> s <> "".
Proof. destruct x as [[|a r]|]; simpl; try discriminate. now intros [= <-]. Qed.

Lemma nonempty_of_not_empty (s : string) : s <> "" -> nonempty (Some s) = Some s.
Proof. now destruct s. Qed.

(** Writing the two keys hides what was written to them before. *)
Lemma save_over_save (s : gmap string string) (i1 k1 i2 k2 : string) :
  <["client_secret" := k2]> (<["client_id" := i2]>
    (<["client_secret" := k1]> (<["client_id" := i1]> s)))
  = <["client_secret" := k2]> (<["client_id" := i2]> s).
Proof.
  apply map_eq. intros j.
  destruct (decide (j = "client_secret")) as [->|Hs].
  - now rewrite !lookup_insert_eq.
  - rewrite !(lookup_insert_ne _ "client_secret") by congruence.
    destruct (decide (j = "client_id")) as [->|Hi].
    + now rewrite !lookup_insert_eq.
    + now rewrite !lookup_insert_ne by congruence.
Qed.

Lemma run_home (provider : Provider) (w : World) :
  run provider (home) w = (inr (mkResponse (Html home_page) 200), w).
Proof. reflexivity. Qed.

(** X5. Of the four handlers only the callback calls the provider or can
    fail: [home()], [authorize()] and [api_token()] always return a
    response and leave the log of calls as it was. *)
Theorem only_callback_calls_provider (provider : Provider) (r : Request) (w : World) :
  match r with
  | GET_callback _ => True
  | _ =>
      posts (snd (run provider (handle r) w)) = posts w /\
      exists resp, fst (run provider (handle r) w) = inr resp
  end.
Proof.
  destruct r as [|form|args|]; cbn [Server.handle]; try exact I.
  - split; [reflexivity | now eexists].
  - rewrite run_authorize.
    destruct (nonempty (get "client_id" form)), (nonempty (get "client_secret" form));
      (split; [reflexivity | now eexists]).
  - rewrite run_api_token. split; [reflexivity | now eexists].
Qed.

Lemma session_after_request (provider : Provider) (r : Request) (w : World) :
  session (snd (run provider (handle r) w)) =
  match r with
  | POST_authorize form =>
      match nonempty (get "client_id" form), nonempty (get "client_secret" form) with
      | Some i, Some k => <["client_secret" := k]> (<["client_id" := i]> (session w))
      | _, _ => session w
      end
  | _ => session w
  end.
Proof.
  destruct r as [|form|args|]; cbn [Server.handle].
  - reflexivity.
  - rewrite run_authorize.
    now destruct (nonempty (get "client_id" form)),
                 (nonempty (get "client_secret" form)).
  - apply run_callback_session.
  - now rewrite run_api_token.
Qed.

(** X6. Every session that the handlers produce from an empty one is
    empty or holds exactly the keys [client_id] and [client_secret], both
    with non-empty values. *)
Theorem reachable_session_shape (w : World) :
  reachable w -> credentials_only (session w).
Proof.
  induction 1 as [|p r w Hw IH]; [now left|].
  rewrite session_after_request.
  destruct r as [|form|args|]; try exact IH.
  destruct (nonempty (get "client_id" form)) as [i|] eqn:Hi; [|exact IH].
  destruct (nonempty (get "client_secret" form)) as [k|] eqn:Hk; [|exact IH].
  right. exists i, k.
  split; [exact (nonempty_not_empty _ _ Hi)|].
  split; [exact (nonempty_not_empty _ _ Hk)|].
  destruct IH as [-> | (i0 & k0 & _ & _ & ->)]; [reflexivity|].
  apply save_over_save.
Qed.

(** X7. No handler removes the credentials: a session that holds them
    holds some after every request, and the same ones unless the request
    was a POST /authorize. *)
Theorem credentials_never_cleared (provider : Provider) (r : Request) (w : World)
    (creds : SessionCredentials) :
  Load (session w) = Some creds ->
  exists creds',
    Load (session (snd (run provider (handle r) w))) = Some creds' /\
    match r with
    | POST_authorize _ => True
    | _ => creds' = creds
    end.
Proof.
  intros HL. rewrite session_after_request.
  destruct r as [|form|args|]; try (now exists creds).
  destruct (nonempty (get "client_id" form)) as [i|] eqn:Hi; [|now exists creds].
  destruct (nonempty (get "client_secret" form)) as [k|] eqn:Hk; [|now exists creds].
  exists (mkCredentials i k). split; [|exact I].
  exact (Load_after_save _ _ _ _ _ Hi Hk).
Qed.

End Sessions.

(** ** More on the callback and the exchange *)

Section Exchanges.

Variable STATE_TOKEN : string.
Variable py_repr : json -> string.

Local Abbreviation exchange := (Server.exchange py_repr).
Local Abbreviation callback := (Server.callback STATE_TOKEN py_repr).
Local Abbreviation api_token := (Server.api_token STATE_TOKEN).
Local Abbreviation authorize := (Server.authorize STATE_TOKEN).
Local Abbreviation handle := (Server.handle STATE_TOKEN py_repr).
Local Abbreviation generate_auth_url := (Server.generate_auth_url STATE_TOKEN).
Local Abbreviation reachable := (Server.reachable STATE_TOKEN py_repr).

(** A query without [error], with the process token as [state] and a
    code is valid in a session that holds credentials. *)
Lemma validate_good (s : gmap string string) (args : MultiDict)
    (creds : SessionCredentials) (c : string) :
  Load s = Some creds ->
  nonempty (get "error" args) = None ->
  get "state" args = Some STATE_TOKEN ->
  nonempty (get "code" args) = Some c ->
  validate STATE_TOKEN (Load s) (params_of args) = Valid c.
Proof.
  intros -> He Hs Hc. unfold validate, params_of. cbn [cb_error cb_state cb_code].
  rewrite He, Hc. now destruct (decide (get "state" args = Some STATE_TOKEN)).
Qed.

Lemma posts_after_valid_callback (provider : Provider) (args : MultiDict) (w : World)
    (creds : SessionCredentials) (c : string) :
  Load (session w) = Some creds ->
  validate STATE_TOKEN (Load (session w)) (params_of args) = Valid c ->
  snd (run provider (callback args) w)
  = mkWorld (session w)
            (posts w ++ [token_request (cred_client_id creds) (cred_client_secret creds) c]).
Proof.
  intros HL Hv. rewrite run_callback_world, Hv.
  now destruct (Load_Some _ _ HL) as [-> ->].
Qed.

(** X8. The credentials that reach the provider are the ones submitted:
    after a valid POST /authorize, a callback without [error], with the
    process token as [state] and a non-empty code makes the one call
    whose form carries the submitted [client_id] and [client_secret], the
    fixed redirect URI and that code. *)
Theorem authorize_then_callback (provider1 provider2 : Provider) (form args : MultiDict)
    (w : World) (client_id client_secret code : string) :
  nonempty (get "client_id" form) = Some client_id ->
  nonempty (get "client_secret" form) = Some client_secret ->
  nonempty (get "error" args) = None ->
  get "state" args = Some STATE_TOKEN ->
  nonempty (get "code" args) = Some code ->
  posts (snd (run provider2 (callback args) (snd (run provider1 (authorize form) w))))
  = posts w ++
    [ mkPostCall "https://api.monzo.com/oauth2/token"
        [ ("grant_type", "authorization_code");
          ("client_id", client_id);
          ("client_secret", client_secret);
          ("redirect_uri", "http://localhost:8080/callback");
          ("code", code) ] ].
Proof.
  intros Hi Hk He Hs Hc.
  pose proof (Load_after_save (session w) _ _ _ _ Hi Hk) as HL.
  rewrite run_authorize, Hi, Hk. cbn [snd].
  rewrite (posts_after_valid_callback provider2 args _ (mkCredentials client_id client_secret) code);
    [reflexivity | exact HL |].
  now apply (validate_good _ _ (mkCredentials client_id client_secret)).
Qed.

(** X9. After a valid POST /authorize, GET /api/token gives as [auth_url]
    the very URL that the answer of /authorize sent the browser to. *)
Theorem authorize_then_api_token (provider1 provider2 : Provider) (form : MultiDict)
    (w : World) (client_id client_secret : string) :
  nonempty (get "client_id" form) = Some client_id ->
  nonempty (get "client_secret" form) = Some client_secret ->
  exists url,
    fst (run provider1 (authorize form) w)
    = inr (mkResponse (Html (redirect_page url)) 200) /\
    fst (run provider2 api_token (snd (run provider1 (authorize form) w)))
    = inr (mkResponse
             (Json [ ("auth_url", url);
                     ("redirect_uri", "http://localhost:8080/callback");
                     ("state_token", STATE_TOKEN) ])
             200).
Proof.
  intros Hi Hk. exists (generate_auth_url client_id).
  rewrite run_api_token, run_authorize, Hi, Hk. cbn [fst snd session].
  split; [reflexivity|].
  rewrite lookup_insert_ne by discriminate. rewrite lookup_insert_eq.
  rewrite truthy_is_nonempty, (nonempty_idem _ _ Hi). reflexivity.
Qed.

(** X10. Neither the code nor the state is used up: the same valid
    callback, handled twice, makes the same call twice. *)
Theorem callback_replay (provider1 provider2 : Provider) (args : MultiDict) (w : World)
    (creds : SessionCredentials) (c : string) :
  Load (session w) = Some creds ->
  validate STATE_TOKEN (Load (session w)) (params_of args) = Valid c ->
  posts (snd (run provider2 (callback args) (snd (run provider1 (callback args) w))))
  = posts w ++
    [ token_request (cred_client_id creds) (cred_client_secret creds) c;
      token_request (cred_client_id creds) (cred_client_secret creds) c ].
Proof.
  intros HL Hv.
  rewrite (posts_after_valid_callback provider1 args w creds c HL Hv).
  rewrite (posts_after_valid_callback provider2 args _ creds c); cbn [session posts];
    [now rewrite <- app_assoc | exact HL | exact Hv].
Qed.

(** X11. Every response of a handler has status 200, 400 or 500; a 500
    comes from the callback only; GET /api/token answers JSON and the
    other handlers markup. *)
Theorem handler_responses (provider : Provider) (r : Request) (w : World) (resp : Response) :
  fst (run provider (handle r) w) = inr resp ->
  known_status (status resp) /\
  (status resp = 500 -> exists args, r = GET_callback args) /\
  match r with
  | GET_api_token => exists fields, body resp = Json fields
  | _ => exists markup, body resp = Html markup
  end.
Proof.
  unfold known_status.
  destruct r as [|form|args|]; cbn [Server.handle].
  - intros [= <-]. cbn. split; [now left|]. split; [discriminate | now eexists].
  - rewrite run_authorize.
    destruct (nonempty (get "client_id" form)), (nonempty (get "client_secret" form));
      intros [= <-]; cbn; (split; [auto|]); (split; [discriminate | now eexists]).
  - rewrite run_callback.
    destruct (validate _ _ _) as [| e | | | c];
      try (intros [= <-]; cbn; (split; [auto|]); (split; [now eexists | now eexists])).
    rewrite run_exchange.
    destruct (provider _ _) as [e | pr].
    + destruct e; intros [= <-]; cbn.
      split; [auto|]. split; now eexists.
    + destruct (status_code pr =? 200).
      * destruct (json_ pr) as [e | v].
        -- destruct e; intros [= <-]; cbn. split; [auto|]. split; now eexists.
        -- destruct v; intros [= <-]; cbn. split; [auto|]. split; now eexists.
      * intros [= <-]; cbn. split; [auto|]. split; now eexists.
  - rewrite run_api_token. cbn [fst].
    destruct (truthy _); intros [= <-]; cbn;
      (split; [auto|]); (split; [discriminate | now eexists]).
Qed.

(** X12. A callback fails only in the exchange, never with a
    [RequestException]: when it raises, the query was valid, one call was
    made, and the exception is not a [RequestException]. *)
Theorem callback_failures (provider : Provider) (args : MultiDict) (w : World) (e : exn) :
  fst (run provider (callback args) w) = inl e ->
  is_valid (validate STATE_TOKEN (Load (session w)) (params_of args)) = true /\
  length (posts (snd (run provider (callback args) w))) = S (length (posts w)) /\
  forall description, e <> RequestException description.
Proof.
  rewrite run_callback_world, run_callback.
  destruct (validate _ _ _) as [| d | | | c]; try discriminate.
  intros H. split; [reflexivity|].
  split; [cbn [posts]; rewrite length_app; cbn [length]; lia|].
  rewrite run_exchange in H.
  destruct (provider _ _) as [e' | pr].
  - destruct e'; inversion H; subst; discriminate.
  - destruct (status_code pr =? 200); [|discriminate].
    destruct (json_ pr) as [e' | v].
    + destruct e'; inversion H; subst; discriminate.
    + destruct v; inversion H; subst; discriminate.
Qed.

(** X13. A 200 from the provider whose body is not what the page needs:
    when [json()] raises a [RequestException] the answer is the 500 page
    with its description; when it raises something else the callback
    raises it too; and when the body is JSON but not an object the
    callback raises an [AttributeError]. *)
Theorem bad_success_body (provider : Provider) (args : MultiDict) (w : World)
    (creds : SessionCredentials) (c : string) (resp : HttpResponse) :
  Load (session w) = Some creds ->
  validate STATE_TOKEN (Load (session w)) (params_of args) = Valid c ->
  provider (posts w) (token_request (cred_client_id creds) (cred_client_secret creds) c)
  = inr resp ->
  status_code resp = 200 ->
  match json_ resp with
  | inl (RequestException description) =>
      fst (run provider (callback args) w)
      = inr (mkResponse
               (Html ("<h1>Request Error</h1><p>Error: " +:+ description +:+ "</p>"))
               500)
  | inl e => fst (run provider (callback args) w) = inl e
  | inr (JObject _) => exists r, fst (run provider (callback args) w) = inr r /\ status r = 200
  | inr _ => exists description,
      fst (run provider (callback args) w) = inl (AttributeError description)
  end.
Proof.
  intros HL Hv Hp Hs.
  rewrite (run_valid_callback STATE_TOKEN py_repr provider args w creds c HL Hv).
  rewrite run_exchange, Hp, Hs. cbn [Z.eqb Pos.eqb].
  destruct (json_ resp) as [e | v].
  - now destruct e.
  - destruct v; now eexists.
Qed.

(** X14. The handler does not insist on an [access_token]: a 200 whose
    object has none is answered with the 200 page of the tokens, with
    [None] where the token goes, in the table and in the script. *)
Theorem missing_access_token (provider : Provider) (args : MultiDict) (w : World)
    (creds : SessionCredentials) (c : string) (resp : HttpResponse)
    (items : list (string * json)) :
  Load (session w) = Some creds ->
  validate STATE_TOKEN (Load (session w)) (params_of args) = Valid c ->
  provider (posts w) (token_request (cred_client_id creds) (cred_client_secret creds) c)
  = inr resp ->
  status_code resp = 200 ->
  json_ resp = inr (JObject items) ->
  items_get "access_token" items = None ->
  exists refresh_token refresh_token_js,
    fst (run provider (callback args) w)
    = inr (mkResponse
             (Html (tokens_page "None" refresh_token
                                (cred_client_id creds) (cred_client_secret creds)
                                "None" refresh_token_js))
             200).
Proof.
  intros HL Hv Hp Hs Hj Ha.
  rewrite (run_valid_callback STATE_TOKEN py_repr provider args w creds c HL Hv).
  rewrite run_exchange, Hp, Hs, Hj, Ha. cbn [Z.eqb Pos.eqb from_option id py_format].
  now do 2 eexists.
Qed.

(** X15. The page of the tokens shows the credentials of the session, the
    [client_secret] included, whatever the object the provider sent; and
    when that object has no [refresh_token], the script of the page copies
    the empty string for it. *)
Theorem tokens_page_shows_credentials (provider : Provider) (args : MultiDict) (w : World)
    (creds : SessionCredentials) (c : string) (resp : HttpResponse)
    (items : list (string * json)) :
  Load (session w) = Some creds ->
  validate STATE_TOKEN (Load (session w)) (params_of args) = Valid c ->
  provider (posts w) (token_request (cred_client_id creds) (cred_client_secret creds) c)
  = inr resp ->
  status_code resp = 200 ->
  json_ resp = inr (JObject items) ->
  exists r access_token refresh_token refresh_token_js,
    fst (run provider (callback args) w) = inr r /\
    body r = Html (tokens_page access_token refresh_token
                               (cred_client_id creds) (cred_client_secret creds)
                               access_token refresh_token_js) /\
    contains (cred_client_id creds) (body_text (body r)) /\
    contains (cred_client_secret creds) (body_text (body r)) /\
    match items_get "refresh_token" items with
    | None => refresh_token_js = ""
    | Some v => refresh_token_js = py_format py_repr v /\ refresh_token = py_format py_repr v
    end.
Proof.
  intros HL Hv Hp Hs Hj.
  rewrite (run_valid_callback STATE_TOKEN py_repr provider args w creds c HL Hv).
  rewrite run_exchange, Hp, Hs, Hj. cbn [Z.eqb Pos.eqb].
  do 4 eexists. split; [reflexivity|]. cbn [body body_text].
  split; [reflexivity|].
  split; [unfold tokens_page; find_piece|].
  split; [unfold tokens_page; find_piece|].
  now destruct (items_get "refresh_token" items).
Qed.

(** X16. GET /api/token looks at [client_id] only: for a session with a
    [client_id] and no [client_secret] it answers 200 with the three
    fields, while the callback answers such a session with the page of
    the expired session. *)
Theorem api_token_ignores_secret (provider : Provider) (args : MultiDict) (w : World)
    (client_id : string) :
  nonempty (session w !! "client_id") = Some client_id ->
  nonempty (session w !! "client_secret") = None ->
  run provider api_token w
  = (inr (mkResponse
            (Json [ ("auth_url", generate_auth_url client_id);
                    ("redirect_uri", "http://localhost:8080/callback");
                    ("state_token", STATE_TOKEN) ])
            200), w) /\
  run provider (callback args) w
  = (inr (mkResponse
            (Html "<h1>Error</h1><p>Session expired. Please start over from the home page.</p>")
            400), w).
Proof.
  intros Hi Hk. split.
  - rewrite run_api_token, truthy_is_nonempty, Hi.
    now destruct (nonempty_Some _ _ Hi) as [_ ->].
  - rewrite run_callback. unfold Load. now rewrite Hi, Hk.
Qed.

Lemma posts_after_request (provider : Provider) (r : Request) (w : World) :
  posts (snd (run provider (handle r) w)) =
  match r with
  | GET_callback args =>
      match validate STATE_TOKEN (Load (session w)) (params_of args) with
      | Valid c =>
          posts w ++ [token_request (text_of (session w !! "client_id"))
                                    (text_of (session w !! "client_secret")) c]
      | _ => posts w
      end
  | _ => posts w
  end.
Proof.
  destruct r as [|form|args|]; cbn [Server.handle].
  - reflexivity.
  - rewrite run_authorize.
    now destruct (nonempty (get "client_id" form)),
                 (nonempty (get "client_secret" form)).
  - rewrite run_callback_world. now destruct (validate _ _ _).
  - now rewrite run_api_token.
Qed.

Lemma Valid_inv (s : gmap string string) (args : MultiDict) (c : string) :
  validate STATE_TOKEN (Load s) (params_of args) = Valid c ->
  c <> "" /\ exists creds, Load s = Some creds.
Proof.
  unfold validate, params_of. cbn [cb_error cb_state cb_code].
  destruct (Load s) as [creds|]; [|discriminate].
  destruct (nonempty (get "error" args)); [discriminate|].
  destruct (decide (get "state" args = Some STATE_TOKEN)); [|discriminate].
  destruct (nonempty (get "code" args)) as [c'|] eqn:Hc; [|discriminate].
  intros [= <-]. split; [|now exists creds].
  destruct (get "code" args) as [[|a r]|]; simpl in Hc; try discriminate.
  now injection Hc as <-.
Qed.

Lemma Load_not_empty (s : gmap string string) (creds : SessionCredentials) :
  Load s = Some creds -> cred_client_id creds <> "" /\ cred_client_secret creds <> "".
Proof.
  unfold Load.
  destruct (s !! "client_id") as [[|a i]|]; simpl; try discriminate.
  destruct (s !! "client_secret") as [[|b k]|]; simpl; try discriminate.
  intros [= <-]. now split.
Qed.

(** X17. In every world that the handlers produce from an empty session
    and an empty log, each logged call is a call to the token endpoint
    with the five fields of the exchange and non-empty [client_id],
    [client_secret] and [code]; and once a call was made the session
    holds credentials. *)
Theorem reachable_calls (w : World) :
  reachable w ->
  Forall exchange_call (posts w) /\
  (posts w <> [] -> exists creds, Load (session w) = Some creds).
Proof.
  induction 1 as [|p r w Hw [IHc IHs]];
    [split; [apply Forall_nil_2 | intros Hne; now contradiction Hne]|].
  rewrite posts_after_request.
  pose proof (run_callback_session STATE_TOKEN py_repr p) as Hcs.
  destruct r as [|form|args|]; cbn [Server.handle].
  - split; [exact IHc | exact IHs].
  - rewrite run_authorize.
    destruct (nonempty (get "client_id" form)) as [i|] eqn:Hi;
      [|split; [exact IHc | exact IHs]].
    destruct (nonempty (get "client_secret" form)) as [k|] eqn:Hk;
      [|split; [exact IHc | exact IHs]].
    split; [exact IHc|]. intros _. cbn [snd session].
    exists (mkCredentials i k). exact (Load_after_save _ _ _ _ _ Hi Hk).
  - rewrite Hcs.
    destruct (validate _ _ _) as [| e | | | c] eqn:Hv;
      try (split; [exact IHc | exact IHs]).
    destruct (Valid_inv _ _ _ Hv) as [Hc [creds HL]].
    split; [|intros _; now exists creds].
    apply Forall_app. split; [exact IHc|]. constructor; [|constructor].
    destruct (Load_Some _ _ HL) as [-> ->].
    destruct (Load_not_empty _ _ HL) as [Hi Hk].
    now exists (cred_client_id creds), (cred_client_secret creds), c.
  - rewrite run_api_token. split; [exact IHc | exact IHs].
Qed.

End Exchanges.

(** ** More on the authorization URL *)

Section Urls.

Import UrlQuery.

Lemma length_append (a b : string) :
  String.length (a +:+ b) = (String.length a + String.length b)%nat.
Proof.
  induction a as [|x a IH]; [reflexivity|].
  rewrite append_cons. cbn [String.length]. now rewrite IH.
Qed.

Lemma append_cancel_r (a b s : string) : a +:+ s = b +:+ s -> a = b.
Proof.
  revert b. induction a as [|x a IH]; intros [|y b] H.
  - reflexivity.
  - apply (f_equal String.length) in H.
    change ("" +:+ s) with s in H. rewrite append_cons in H.
    cbn [String.length] in H. rewrite length_append in H. lia.
  - apply (f_equal String.length) in H.
    change ("" +:+ s) with s in H. rewrite append_cons in H.
    cbn [String.length] in H. rewrite length_append in H. lia.
  - rewrite !append_cons in H. injection H as -> H. f_equal. now apply IH.
Qed.




(** X4. For one process token, different [client_id]s give different
    URLs. *)
Theorem generate_auth_url_injective (STATE_TOKEN a b : string) :
  generate_auth_url STATE_TOKEN a = generate_auth_url STATE_TOKEN b -> a = b.
Proof.
  unfold generate_auth_url. intros H.
  do 2 apply String.app_inj in H.
  exact (append_cancel_r _ _ _ H).
Qed.

End Urls.

Section RoundTrip.

Variable STATE_TOKEN : string.
Variable py_repr : json -> string.

(** X18. The [state] of the authorization URL is the one the callback
    accepts: for a [client_id] and a process token without [&], [#], [%]
    and [+], a callback that brings back the [state] read from the URL,
    with a non-empty code, in a session that holds credentials, goes on
    to the exchange. *)
Theorem url_state_is_accepted (provider : Provider) (w : World)
    (creds : SessionCredentials) (client_id s code : string) :
  UrlQuery.plain client_id = true ->
  UrlQuery.plain STATE_TOKEN = true ->
  UrlQuery.param "state" (generate_auth_url STATE_TOKEN client_id) = Some s ->
  Load (session w) = Some creds ->
  code <> "" ->
  posts (snd (run provider
                  (callback STATE_TOKEN py_repr [("code", code); ("state", s)]) w))
  = posts w ++ [token_request (cred_client_id creds) (cred_client_secret creds) code].
Proof.
  intros Hc Ht Hs HL Hcode.
  unfold UrlQuery.param in Hs.
  rewrite (plain_url_parameters STATE_TOKEN client_id Hc Ht) in Hs.
  injection Hs as <-.
  rewrite (posts_after_valid_callback STATE_TOKEN py_repr provider _ w creds code HL);
    [reflexivity|].
  apply (validate_good STATE_TOKEN _ _ creds); try reflexivity; [exact HL|].
  now apply nonempty_of_not_empty.
Qed.

End RoundTrip.

(** ** Instances of the further properties *)

Section Instances.

Import Scenario Answers.

Local Abbreviation callback := (Server.callback token repr).
Local Abbreviation api_token := (Server.api_token token).
Local Abbreviation authorize := (Server.authorize token).
Local Abbreviation handle := (Server.handle token repr).

Lemma session_shape_after_authorize :
  reachable token repr (snd (run grants (handle (POST_authorize form)) (mkWorld ∅ []))) /\
  credentials_only (session (snd (run grants (handle (POST_authorize form)) (mkWorld ∅ [])))).
Proof.
  assert (H : reachable token repr
                (snd (run grants (handle (POST_authorize form)) (mkWorld ∅ []))))
    by (apply reachable_request, reachable_start).
  split; [exact H|].
  exact (reachable_session_shape token repr _ H).
Defined.

Lemma credentials_survive_callback :
  Load (session authorized) = Some (mkCredentials "abc" "xyz") /\
  exists creds',
    Load (session (snd (run refuses (handle (GET_callback good_callback)) authorized)))
    = Some creds' /\ creds' = mkCredentials "abc" "xyz".
Proof.
  assert (H : Load (session authorized) = Some (mkCredentials "abc" "xyz"))
    by (vm_compute; reflexivity).
  split; [exact H|].
  exact (credentials_never_cleared token repr refuses (GET_callback good_callback)
           authorized (mkCredentials "abc" "xyz") H).
Defined.

Lemma submitted_credentials_are_posted :
  nonempty (get "client_id" form) = Some "abc" /\
  nonempty (get "client_secret" form) = Some "xyz" /\
  posts (snd (run grants (callback good_callback)
                  (snd (run grants (authorize form) (mkWorld ∅ [])))))
  = [ mkPostCall "https://api.monzo.com/oauth2/token"
        [ ("grant_type", "authorization_code");
          ("client_id", "abc");
          ("client_secret", "xyz");
          ("redirect_uri", "http://localhost:8080/callback");
          ("code", "good123") ] ].
Proof.
  split; [reflexivity|]. split; [reflexivity|].
  apply (authorize_then_callback token repr grants grants form good_callback
           (mkWorld ∅ []) "abc" "xyz" "good123"); reflexivity.
Defined.

Lemma api_token_repeats_redirect :
  nonempty (get "client_id" form) = Some "abc" /\
  exists url,
    fst (run grants (authorize form) (mkWorld ∅ []))
    = inr (mkResponse (Html (redirect_page url)) 200) /\
    fst (run grants api_token (snd (run grants (authorize form) (mkWorld ∅ []))))
    = inr (mkResponse
             (Json [ ("auth_url", url);
                     ("redirect_uri", "http://localhost:8080/callback");
                     ("state_token", token) ])
             200).
Proof.
  split; [reflexivity|].
  apply (authorize_then_api_token token grants grants form (mkWorld ∅ []) "abc" "xyz");
    reflexivity.
Defined.

Lemma good_callback_twice :
  Load (session authorized) = Some (mkCredentials "abc" "xyz") /\
  validate token (Load (session authorized)) (params_of good_callback) = Valid "good123" /\
  posts (snd (run grants (callback good_callback)
                  (snd (run refuses (callback good_callback) authorized))))
  = [ token_request "abc" "xyz" "good123"; token_request "abc" "xyz" "good123" ].
Proof.
  split; [vm_compute; reflexivity|]. split; [vm_compute; reflexivity|].
  apply (callback_replay token repr refuses grants good_callback authorized
           (mkCredentials "abc" "xyz") "good123"); vm_compute; reflexivity.
Defined.

Lemma refused_exchange_status :
  fst (run refuses (handle (GET_callback good_callback)) authorized)
  = inr (mkResponse
           (Html "<h1>Token Exchange Failed</h1><p>Status: 401</p><p>Error: {'error':'invalid_client'}</p>")
           400) /\
  known_status 400.
Proof.
  assert (H : fst (run refuses (handle (GET_callback good_callback)) authorized)
              = inr (mkResponse
                       (Html "<h1>Token Exchange Failed</h1><p>Status: 401</p><p>Error: {'error':'invalid_client'}</p>")
                       400))
    by (vm_compute; reflexivity).
  split; [exact H|].
  exact (proj1 (handler_responses token repr refuses (GET_callback good_callback)
                  authorized _ H)).
Defined.

Lemma array_body_raises :
  fst (run answers_array (callback good_callback) authorized)
  = inl (AttributeError "object has no attribute 'get'") /\
  length (posts (snd (run answers_array (callback good_callback) authorized))) = 1%nat.
Proof.
  assert (H : fst (run answers_array (callback good_callback) authorized)
              = inl (AttributeError "object has no attribute 'get'"))
    by (vm_compute; reflexivity).
  split; [exact H|].
  exact (proj1 (proj2 (callback_failures token repr answers_array good_callback
                         authorized _ H))).
Defined.

Lemma garbled_body_is_reported :
  Load (session authorized) = Some (mkCredentials "abc" "xyz") /\
  validate token (Load (session authorized)) (params_of good_callback) = Valid "good123" /\
  fst (run garbles (callback good_callback) authorized)
  = inr (mkResponse (Html "<h1>Request Error</h1><p>Error: Expecting value</p>") 500).
Proof.
  split; [vm_compute; reflexivity|]. split; [vm_compute; reflexivity|].
  apply (bad_success_body token repr garbles good_callback authorized
           (mkCredentials "abc" "xyz") "good123"
           (mkHttpResponse 200 "<html>" (inl (RequestException "Expecting value"))));
    vm_compute; reflexivity.
Defined.

Lemma omitted_access_token_is_None :
  Load (session authorized) = Some (mkCredentials "abc" "xyz") /\
  items_get "access_token" [("token_type", JString "Bearer")] = None /\
  exists refresh_token refresh_token_js,
    fst (run omits_access_token (callback good_callback) authorized)
    = inr (mkResponse
             (Html (tokens_page "None" refresh_token "abc" "xyz" "None" refresh_token_js))
             200).
Proof.
  split; [vm_compute; reflexivity|]. split; [reflexivity|].
  apply (missing_access_token token repr omits_access_token good_callback authorized
           (mkCredentials "abc" "xyz") "good123"
           (mkHttpResponse 200 "{'token_type':'Bearer'}"
              (inr (JObject [("token_type", JString "Bearer")])))
           [("token_type", JString "Bearer")]);
    vm_compute; reflexivity.
Defined.

Lemma secret_is_on_the_page :
  Load (session authorized) = Some (mkCredentials "abc" "xyz") /\
  exists r,
    fst (run grants (callback good_callback) authorized) = inr r /\
    contains "abc" (body_text (body r)) /\
    contains "xyz" (body_text (body r)).
Proof.
  split; [vm_compute; reflexivity|].
  destruct (tokens_page_shows_credentials token repr grants good_callback authorized
              (mkCredentials "abc" "xyz") "good123"
              (mkHttpResponse 200 "{'access_token':'tok_1','refresh_token':'ref_1'}"
                 (inr (JObject [("access_token", JString "tok_1");
                                ("refresh_token", JString "ref_1")])))
              [("access_token", JString "tok_1"); ("refresh_token", JString "ref_1")])
    as (r & a & rt & rj & Hr & _ & Hi & Hk & _);
    try (vm_compute; reflexivity).
  exists r. split; [exact Hr|]. split; [exact Hi | exact Hk].
Defined.

Lemma half_session_answers :
  nonempty (session half_session !! "client_id") = Some "abc" /\
  nonempty (session half_session !! "client_secret") = None /\
  fst (run grants api_token half_session)
  = inr (mkResponse
           (Json [ ("auth_url", generate_auth_url token "abc");
                   ("redirect_uri", "http://localhost:8080/callback");
                   ("state_token", token) ])
           200) /\
  fst (run grants (callback good_callback) half_session)
  = inr (mkResponse
           (Html "<h1>Error</h1><p>Session expired. Please start over from the home page.</p>")
           400).
Proof.
  assert (H1 : nonempty (session half_session !! "client_id") = Some "abc")
    by (vm_compute; reflexivity).
  assert (H2 : nonempty (session half_session !! "client_secret") = None)
    by (vm_compute; reflexivity).
  split; [exact H1|]. split; [exact H2|].
  destruct (api_token_ignores_secret token repr grants good_callback half_session "abc" H1 H2)
    as [Ha Hc].
  split; [now rewrite Ha | now rewrite Hc].
Defined.

Lemma calls_after_one_exchange :
  let w := snd (run grants (handle (GET_callback good_callback))
                    (snd (run grants (handle (POST_authorize form)) (mkWorld ∅ [])))) in
  reachable token repr w /\ Forall exchange_call (posts w) /\ length (posts w) = 1%nat.
Proof.
  intros w.
  assert (H : reachable token repr w)
    by (apply reachable_request, reachable_request, reachable_start).
  split; [exact H|].
  split; [exact (proj1 (reachable_calls token repr w H)) | vm_compute; reflexivity].
Defined.

Lemma url_state_comes_back :
  UrlQuery.plain "abc" = true /\ UrlQuery.plain token = true /\
  UrlQuery.param "state" (generate_auth_url token "abc") = Some "tok" /\
  posts (snd (run grants (callback [("code", "good123"); ("state", "tok")]) authorized))
  = [token_request "abc" "xyz" "good123"].
Proof.
  split; [reflexivity|]. split; [reflexivity|]. split; [vm_compute; reflexivity|].
  apply (url_state_is_accepted token repr grants authorized (mkCredentials "abc" "xyz")
           "abc" "tok" "good123");
    try (vm_compute; reflexivity).
  discriminate.
Defined.




Lemma same_url_same_client_id :
  generate_auth_url token "abc" = generate_auth_url token ("a" +:+ "bc") /\
  "abc" = "a" +:+ "bc".
Proof.
  assert (H : generate_auth_url token "abc" = generate_auth_url token ("a" +:+ "bc"))
    by reflexivity.
  split; [exact H|].
  exact (generate_auth_url_injective token _ _ H).
Defined.

End Instances.
